(** * Car-production sample: model building, deployment and job polling

    A shallow embedding of the four Python scripts of the sample
    ([sample/model.py], [sample/utils.py], [sample/model_deploy.py],
    [sample/model_execute.py]) together with the properties their
    description states about them.

    Python values are embedded as follows: integers are [Z], strings are
    [string], a [dict] used as a map is a [gmap], JSON documents are the
    inductive type [json], exceptions are the constructors of [exn], and a
    function with side effects is a state transformer over [World] that
    returns either a value or the exception it raised.  The services the
    scripts only call (the JSON and CSV codecs, the machine-learning cloud
    client, the optimisation engine) are the fields of the class
    [Platform]. *)

From Stdlib Require Import ZArith List String Ascii Lia.
From stdpp Require Import base option list strings gmap fin_maps pretty.

Set Warnings "-register-all".

#[local] Open Scope string_scope.
#[local] Open Scope list_scope.
#[local] Open Scope Z_scope.

(* ===================================================================== *)
(** * Python values, exceptions and results                               *)
(* ===================================================================== *)

(** The values [json.load] produces; [JNull] also stands for [None]. *)
Inductive json : Type :=
| JNull
| JBool (b : bool)
| JNum (n : Z)
| JStr (s : string)
| JArr (l : list json)
| JObj (o : gmap string json).

(** The exception classes the scripts can meet.  Every one of them is a
    subclass of Python's [Exception]. *)
Inductive exn : Type :=
| FileNotFoundError (msg : string)
| JSONDecodeError (msg : string)
| KeyError (msg : string)
| TypeError (msg : string)
| AttributeError (msg : string)
| ValueError (msg : string)
| StopIteration
| NotImplementedError (msg : string)
| DOcplexException (msg : string)
| WMLClientError (msg : string).

Inductive result (A : Type) : Type :=
| Ok (a : A)
| Raise (e : exn).
Arguments Ok {A} a.
Arguments Raise {A} e.

Definition is_raised {A} (r : result A) : bool :=
  match r with Ok _ => false | Raise _ => true end.

(** [v[key]] for a string key. *)
Definition py_getitem (v : json) (key : string) : result json :=
  match v with
  | JObj o =>
      match o !! key with
      | Some x => Ok x
      | None => Raise (KeyError key)
      end
  | JArr _ => Raise (TypeError "list indices must be integers or slices, not str")
  | JStr _ => Raise (TypeError "string indices must be integers")
  | _ => Raise (TypeError "object is not subscriptable")
  end.

(** [v[key] = x] for a string key. *)
Definition py_setitem (v : json) (key : string) (x : json) : result json :=
  match v with
  | JObj o => Ok (JObj (<[key := x]> o))
  | JArr _ => Raise (TypeError "list indices must be integers or slices, not str")
  | _ => Raise (TypeError "object does not support item assignment")
  end.

(** [v.get(key)]: [None] when the key is absent. *)
Definition py_dict_get (v : json) (key : string) : result json :=
  match v with
  | JObj o => Ok (default JNull (o !! key))
  | _ => Raise (AttributeError "object has no attribute 'get'")
  end.

(* ===================================================================== *)
(** * Strings: slices, [rfind], [os.path.splitext], [str.split]           *)
(* ===================================================================== *)

(** [s[-n:]] *)
Definition py_last (n : nat) (s : string) : string :=
  substring (String.length s - n) n s.

(** [s[:i]] and [s[i:]] for [0 <= i]. *)
Definition py_take (i : nat) (s : string) : string := substring 0 i s.
Definition py_drop (i : nat) (s : string) : string :=
  substring i (String.length s - i) s.

Fixpoint rfind_go (c : ascii) (s : string) (i last : Z) : Z :=
  match s with
  | EmptyString => last
  | String a s' => rfind_go c s' (i + 1) (if Ascii.eqb a c then i else last)
  end.

(** [s.rfind(c)]: the highest index of [c] in [s], or [-1]. *)
Definition rfind (c : ascii) (s : string) : Z := rfind_go c s 0 (-1).

(** The loop of [splitext] that skips leading dots: is there a character
    other than ['.'] among the [n] characters of [p] from [start] on? *)
Fixpoint has_non_dot (p : string) (start n : nat) : bool :=
  match n with
  | O => false
  | S n' =>
      match String.get start p with
      | Some c => if Ascii.eqb c "." then has_non_dot p (S start) n' else true
      | None => true
      end
  end.

(** [os.path.splitext] (POSIX flavour). *)
Definition splitext (p : string) : string * string :=
  let sepIndex := rfind "/" p in
  let dotIndex := rfind "." p in
  if (sepIndex <? dotIndex) &&
     has_non_dot p (Z.to_nat (sepIndex + 1)) (Z.to_nat (dotIndex - (sepIndex + 1)))
  then (py_take (Z.to_nat dotIndex) p, py_drop (Z.to_nat dotIndex) p)
  else (p, "").

(** [s.split(sep)] for a non-empty separator; [skip] counts the characters
    of a separator occurrence still to be passed over. *)
Fixpoint split_go (sep s : string) (skip : nat) (cur : string) : list string :=
  match s with
  | EmptyString => [cur]
  | String c s' =>
      match skip with
      | S k => split_go sep s' k cur
      | O =>
          if String.prefix sep s
          then cur :: split_go sep s' (String.length sep - 1) ""
          else split_go sep s' O (cur +:+ String c "")
      end
  end.

Definition py_split (sep s : string) : list string := split_go sep s O "".

(* ===================================================================== *)
(** * Data frames                                                         *)
(* ===================================================================== *)

(** A cell of a data frame: a number, a string, or a missing value. *)
Inductive cell : Type :=
| CNum (n : Z)
| CStr (s : string)
| CNaN.

#[global] Instance cell_eq_dec : EqDecision cell.
Proof. solve_decision. Defined.

(** [str(c)], as ['%s' % c] formats it. *)
Definition cell_str (c : cell) : string :=
  match c with
  | CNum n => pretty n
  | CStr s => s
  | CNaN => "nan"
  end.

(** A frame is a list of row labels and, in order, its named columns. *)
Record DataFrame : Type := {
  df_index : list cell;
  df_columns : list (string * list cell)
}.

Definition empty_frame : DataFrame := {| df_index := []; df_columns := [] |}.

Fixpoint assoc {A} (k : string) (l : list (string * A)) : option A :=
  match l with
  | [] => None
  | (k', a) :: l' => if decide (k' = k) then Some a else assoc k l'
  end.

Fixpoint assoc_remove {A} (k : string) (l : list (string * A)) : list (string * A) :=
  match l with
  | [] => []
  | (k', a) :: l' =>
      if decide (k' = k) then l' else (k', a) :: assoc_remove k l'
  end.

Definition df_column (df : DataFrame) (name : string) : option (list cell) :=
  assoc name (df_columns df).

(** [df.set_index(name)]: the column becomes the row labels. *)
Definition set_index (df : DataFrame) (name : string) : result DataFrame :=
  match df_column df name with
  | Some labels =>
      Ok {| df_index := labels; df_columns := assoc_remove name (df_columns df) |}
  | None => Raise (KeyError name)
  end.

(** What [df.loc[label, column]] evaluates to: a scalar when one row carries
    the label, a series when several do. *)
Inductive locval : Type :=
| Scalar (c : cell)
| Series (cs : list cell).

(** The positions of [label] among the row labels. *)
Fixpoint positions (label : cell) (labels : list cell) (i : nat) : list nat :=
  match labels with
  | [] => []
  | l :: ls =>
      if decide (l = label) then i :: positions label ls (S i)
      else positions label ls (S i)
  end.

Definition loc (df : DataFrame) (label : cell) (column : string) : result locval :=
  match df_column df column with
  | None => Raise (KeyError column)
  | Some col =>
      match positions label (df_index df) O with
      | [] => Raise (KeyError (cell_str label))
      | [i] => Ok (Scalar (default CNaN (col !! i)))
      | ps => Ok (Series ((fun i => default CNaN (col !! i)) <$> ps))
      end
  end.

(** [df.loc[row, column] = v], which enlarges the frame when the row label or
    the column is new. *)
Definition set_loc (df : DataFrame) (row : cell) (column : string) (v : cell)
  : DataFrame :=
  let cols :=
    match df_column df column with
    | Some _ => df_columns df
    | None => df_columns df ++ [(column, (fun _ => CNaN) <$> df_index df)]
    end in
  match positions row (df_index df) O with
  | [] =>
      {| df_index := df_index df ++ [row];
         df_columns :=
           (fun '(name, col) =>
              (name, col ++ [if decide (name = column) then v else CNaN])) <$> cols |}
  | ps =>
      {| df_index := df_index df;
         df_columns :=
           (fun '(name, col) =>
              (name, if decide (name = column)
                     then foldr (fun i c => <[i := v]> c) col ps
                     else col)) <$> cols |}
  end.

(** [pd.DataFrame(data=rows, columns=fields)] *)
Definition frame_of_rows (rows : list (list cell)) (fields : list string)
  : DataFrame :=
  {| df_index := (fun i => CNum (Z.of_nat i)) <$> seq 0 (length rows);
     df_columns :=
       (fun '(j, name) => (name, (fun r => default CNaN (r !! j)) <$> rows))
         <$> zip (seq 0 (length fields)) fields |}.

(** [pd.DataFrame(d, index=[0])] for a dictionary of scalars. *)
Definition frame_of_scalars (d : list (string * Z)) : DataFrame :=
  {| df_index := [CNum 0];
     df_columns := (fun '(name, v) => (name, [CNum v])) <$> d |}.

(* ===================================================================== *)
(** * The linear program a docplex [Model] holds                          *)
(* ===================================================================== *)

(** Linear expressions, as the script writes them: [x + y], [c * x] and
    [model.sum(...)]. *)
Inductive lexpr : Type :=
| LVar (v : string)
| LConst (c : Z)
| LScale (c : Z) (e : lexpr)
| LPlus (a b : lexpr)
| LSum (es : list lexpr).

Inductive sense : Type := GE | LE.

Record lconstraint : Type := {
  c_lhs : lexpr;
  c_sense : sense;
  c_rhs : lexpr
}.

(** A continuous decision variable; docplex's default bounds are [0] and
    infinity ([None]). *)
Record var_decl : Type := {
  v_name : string;
  v_lb : Z;
  v_ub : option Z
}.

Inductive objective : Type :=
| Maximize (e : lexpr)
| Minimize (e : lexpr).

(** [model.solution]: the variables the solution mentions, with their values. *)
Definition Solution : Type := list (string * Z).

Record LPModel : Type := {
  m_name : string;
  m_vars : list var_decl;
  m_constraints : list lconstraint;
  m_kpis : list (string * lexpr);
  m_objective : option objective;
  m_solution : option Solution
}.

(** The value of an expression under an assignment of the variables. *)
Fixpoint eval (sigma : string -> Z) (e : lexpr) : Z :=
  match e with
  | LVar v => sigma v
  | LConst c => c
  | LScale c e' => c * eval sigma e'
  | LPlus a b => eval sigma a + eval sigma b
  | LSum es =>
      (fix sum (l : list lexpr) : Z :=
         match l with
         | [] => 0
         | e' :: l' => eval sigma e' + sum l'
         end) es
  end.

(** The variables an expression mentions. *)
Fixpoint vars_of (e : lexpr) : list string :=
  match e with
  | LVar v => [v]
  | LConst _ => []
  | LScale _ e' => vars_of e'
  | LPlus a b => vars_of a ++ vars_of b
  | LSum es =>
      (fix go (l : list lexpr) : list string :=
         match l with
         | [] => []
         | e' :: l' => vars_of e' ++ go l'
         end) es
  end.

(** The value a solution gives a variable ([0] when it does not mention it). *)
Definition solution_value (s : Solution) (v : string) : Z :=
  default 0 (assoc v s).

(* ===================================================================== *)
(** * The cloud client, the codecs and the solver                         *)
(* ===================================================================== *)

Record credentials : Type := {
  cred_url : string;
  cred_apikey : json
}.

Record model_meta_props : Type := {
  mm_NAME : string;
  mm_TYPE : string;
  mm_SOFTWARE_SPEC_UID : json
}.

Record hardware_spec : Type := {
  hw_name : string;
  hw_num_nodes : Z
}.

Record deployment_meta : Type := {
  dm_NAME : string;
  dm_BATCH : json;
  dm_HARDWARE_SPEC : hardware_spec;
  dm_DESCRIPTION : string;
  dm_TAGS : option (list string)
}.

(** The keys of [client.deployments.DecisionOptimizationMetaNames]. *)
Inductive do_meta_name : Type :=
| INPUT_DATA
| INPUT_DATA_REFERENCES
| OUTPUT_DATA
| OUTPUT_DATA_REFERENCES
| SOLVE_PARAMETERS.

#[global] Instance do_meta_name_eq_dec : EqDecision do_meta_name.
Proof. solve_decision. Defined.

(** One [{"id": ..., "values": ...}] entry of a job payload. *)
Record payload_item : Type := {
  item_id : string;
  item_values : option DataFrame
}.

Inductive payload_value : Type :=
| PItems (items : list payload_item)
| PParams (params : list (string * json)).

Definition job_payload : Type := list (do_meta_name * payload_value).

(** The calls made on the cloud client, with their arguments. *)
Inductive wml_call : Type :=
| APIClient_new (c : credentials)
| Set_default_space (space_uid : json)
| Spaces_list (limit : Z)
| Deployments_delete (id : json)
| Repository_delete (id : json)
| Software_specifications_get_uid_by_name (name : string)
| Repository_store_model (model : string) (meta : model_meta_props)
| Repository_get_model_id (details : json)
| Deployments_create (model_id : json) (meta : deployment_meta)
| Deployments_get_id (details : json)
| Deployments_create_job (deployment_id : json) (payload : job_payload)
| Deployments_get_job_uid (job : json)
| Deployments_get_job_status (job_id : json)
| Deployments_get_job_details (job_id : json).

(** A piece of a formatted message. *)
Inductive piece : Type :=
| PText (s : string)
| PJson (v : json)
| PFrame (df : DataFrame).

(** What a run does that can be observed from outside, in order. *)
Inductive event : Type :=
| EvCall (c : wml_call)
| EvLogException (e : exn)
| EvLogInfo (msg : list piece)
| EvLogWarning (msg : string)
| EvPrint (msg : string)
| EvSleep (seconds : Z)
| EvSolve (m : LPModel)
| EvMakedirs (name : string).

(** The services the scripts call but do not implement. *)
Class Platform : Type := {
  (** what a file holds *)
  Content : Type;
  (** [json.load], [json.dump] and their round trip *)
  json_load : Content -> option json;
  json_dump : json -> Content;
  json_load_dump : forall j, json_load (json_dump j) = Some j;
  (** [pickle.load] *)
  pickle_load : Content -> result json;
  (** [pd.read_csv] and [df.to_csv(index=...)] *)
  read_csv : Content -> result DataFrame;
  to_csv : bool -> DataFrame -> Content;
  (** the archive [tarfile] writes for the given members *)
  tar_gz : list (string * Content) -> Content;
  (** the state of the cloud service and its answer to each call *)
  Cloud : Type;
  wml : wml_call -> Cloud -> result json * Cloud;
  (** the optimisation engine behind [model.solve()] *)
  cplex_solve : LPModel -> result (option Solution);
  (** [Path(__file__).parent.parent] *)
  project_root : string
}.

(** The state a script runs in. *)
Record World `{Platform} : Type := {
  disk : gmap string Content;
  listdir : list string;
  today : string;
  cloud : Cloud;
  trace : list event
}.

(* ===================================================================== *)
(** * Effectful code: state and exceptions                                *)
(* ===================================================================== *)

Definition SE (S A : Type) : Type := S -> result A * S.

#[global] Instance SE_ret {S} : MRet (SE S) := fun A a s => (Ok a, s).
#[global] Instance SE_bind {S} : MBind (SE S) := fun A B f m s =>
  match m s with
  | (Ok a, s') => f a s'
  | (Raise e, s') => (Raise e, s')
  end.

Definition raise {S A} (e : exn) : SE S A := fun s => (Raise e, s).

Definition lift {S A} (r : result A) : SE S A := fun s => (r, s).

(** [try: body except ...: handler]; the handler is [None] for an exception
    no clause matches. *)
Definition try_except {S A} (body : SE S A) (handler : exn -> option (SE S A))
  : SE S A := fun s =>
  match body s with
  | (Ok a, s') => (Ok a, s')
  | (Raise e, s') =>
      match handler e with
      | Some h => h s'
      | None => (Raise e, s')
      end
  end.

(** [for x in xs: body x] *)
Fixpoint for_each {S A} (xs : list A) (body : A -> SE S unit) : SE S unit :=
  match xs with
  | [] => mret tt
  | x :: xs' => body x ;; for_each xs' body
  end.

Section Effects.
Context `{Platform}.

Definition M (A : Type) : Type := SE World A.

Definition emit (e : event) : M unit := fun w =>
  (Ok tt, {| disk := disk w; listdir := listdir w; today := today w;
             cloud := cloud w; trace := trace w ++ [e] |}).

(** A call on the cloud client: recorded, then answered by the service. *)
Definition call (c : wml_call) : M json := fun w =>
  let '(r, cl) := wml c (cloud w) in
  (r, {| disk := disk w; listdir := listdir w; today := today w;
         cloud := cl; trace := trace w ++ [EvCall c] |}).

(** [open(path, 'r')] followed by reading the file. *)
Definition read_file (path : string) : M Content := fun w =>
  match disk w !! path with
  | Some c => (Ok c, w)
  | None => (Raise (FileNotFoundError path), w)
  end.

(** [open(path, 'w')] followed by writing [c], for a path that can be opened
    for writing: the file is created or replaced.  The failures of [open]
    itself (a missing folder, a path that names a folder, missing rights)
    are outside the model: what is said of a write is said of a write that
    [open] allows. *)
Definition write_file (path : string) (c : Content) : M unit := fun w =>
  (Ok tt, {| disk := <[path := c]> (disk w); listdir := listdir w;
             today := today w; cloud := cloud w; trace := trace w |}).

Definition logging_exception (e : exn) : M unit := emit (EvLogException e).

End Effects.

(* ===================================================================== *)
(** * sample/utils.py                                                     *)
(* ===================================================================== *)

(** The double-quote character, for the messages that show a JSON layout. *)
Definition dq : string := String (ascii_of_nat 34) EmptyString.

(** [os.path.basename] *)
Definition basename (p : string) : string :=
  py_drop (Z.to_nat (rfind "/" p + 1)) p.

(** The client object [APIClient(wml_credentials)] returns. *)
Record APIClient : Type := { client_credentials : credentials }.

Module utils.
Section Defs.
Context `{Platform}.

Definition load_from_disk (file_name : string) : M json :=
  if decide (py_last 4 file_name = ".pkl") then
    c ← read_file file_name; lift (pickle_load c)
  else if decide (py_last 5 file_name = ".json") then
    c ← read_file file_name;
    match json_load c with
    | Some v => mret v
    | None => raise (JSONDecodeError file_name)
    end
  else mret JNull.

Definition write_to_disk (obj : json) (file_name : string) : M unit :=
  let '(name, extension) := splitext file_name in
  if decide (extension = ".json") then write_file file_name (json_dump obj)
  else raise (NotImplementedError (extension +:+ " not implemented.")).

Definition get_spaces (client : APIClient) : M json := call (Spaces_list 10).

Definition get_solve_parameters : list (string * json) :=
  [ ("oaas.logAttachmentName", JStr "log.txt");
    ("oaas.logTailEnabled", JStr "true");
    ("oaas.timeLimit", JNum 10);
    ("oaas.resultsFormat", JStr "JSON");
    ("oaas.dumpZipName", JBool true);
    ("oaas.dumpZipRules", JStr "(duration>=1000)
                                 or (&amp;(duration&lt;1000)(!(solveState.solveStatus=OPTIMAL_SOLUTION)))
                                 or (|(solveState.interruptionStatus=OUT_OF_MEMORY)
                                (solveState.failureInfo.type=INFRASTRUCTURE))") ].

Definition auth_path : string := project_root +:+ "/auth.json".
Definition settings_path : string := project_root +:+ "/settings.json".

(** The layout a message shows: [{"key": "PLACEHOLDER"}]. *)
Definition file_structure (key placeholder : string) : string :=
  "{" +:+ dq +:+ key +:+ dq +:+ ": " +:+ dq +:+ placeholder +:+ dq +:+ "}".

Definition auth_structure_error_msg : string :=
  "Please provide the auth.json in the following structure: "
    +:+ file_structure "api_key" "API_KEY_HERE".
Definition auth_missing_error_msg : string :=
  "Please place the auth.json file in the root of project directory.".

Definition settings_structure_error_msg (key placeholder : string) : string :=
  "Please provide the settings.json in the following structure: "
    +:+ file_structure key placeholder.
Definition settings_missing_error_msg : string :=
  "Please place the settings.json file in the root of project directory.".

(** The two [except] clauses the three getters share. *)
Definition getter_handler (missing_msg structure_msg : string) (e : exn)
  : option (M json) :=
  match e with
  | FileNotFoundError _ =>
      Some (logging_exception e ;; raise (FileNotFoundError missing_msg))
  | JSONDecodeError _ | KeyError _ =>
      Some (logging_exception e ;; raise (KeyError structure_msg))
  | _ => None
  end.

Definition get_api_key : M json :=
  try_except
    (v ← load_from_disk auth_path; lift (py_getitem v "api_key"))
    (getter_handler auth_missing_error_msg auth_structure_error_msg).

Definition get_project_id : M json :=
  try_except
    (v ← load_from_disk settings_path; lift (py_getitem v "project_id"))
    (getter_handler settings_missing_error_msg
       (settings_structure_error_msg "project_id" "PROJECT_ID_HERE")).

Definition get_space_uid : M json :=
  try_except
    (v ← load_from_disk settings_path; lift (py_getitem v "space_uid"))
    (getter_handler settings_missing_error_msg
       (settings_structure_error_msg "space_uid" "SPACE_UID")).

Definition get_settings : M (json * string) :=
  settings ← load_from_disk settings_path;
  mret (settings, settings_path).

Definition store_deployment_id (deployment_id : json) : M unit :=
  '(settings, path) ← get_settings;
  settings ← lift (py_setitem settings "deployment_id" deployment_id);
  write_to_disk settings path.

Definition get_publish_id : M json :=
  '(settings, _) ← get_settings;
  lift (py_getitem settings "publishing_id").

Definition get_deployment_id : M json :=
  '(settings, _) ← get_settings;
  lift (py_getitem settings "deployment_id").

Definition store_publishing_id (deployment_id : json) : M unit :=
  '(settings, path) ← get_settings;
  settings ← lift (py_setitem settings "publishing_id" deployment_id);
  write_to_disk settings path.

(** [except Exception as e: logging.exception(e); pass] *)
Definition log_and_pass (e : exn) : option (M unit) :=
  Some (logging_exception e).

Definition delete_previous_deployment (client : APIClient) : M unit :=
  try_except
    (previous_deployed_model_id ← get_deployment_id;
     call (Deployments_delete previous_deployed_model_id) ;;
     mret tt)
    log_and_pass.

Definition delete_previous_publication (client : APIClient) : M unit :=
  try_except
    (previous_published_model_id ← get_publish_id;
     call (Repository_delete previous_published_model_id) ;;
     mret tt)
    log_and_pass.

Definition delete_previous_publication_and_deployment (client : APIClient)
  : M unit :=
  delete_previous_deployment client ;;
  delete_previous_publication client.

Definition get_wml_client (wml_credentials : credentials) : M APIClient :=
  space_uid ← get_space_uid;
  call (APIClient_new wml_credentials) ;;
  call (Set_default_space space_uid) ;;
  mret {| client_credentials := wml_credentials |}.

Definition zip_model (path_to_python_model model_name : string) : M string :=
  emit (EvMakedirs model_name) ;;
  let path_to_zip := model_name +:+ "/model.tar.gz" in
  write_file path_to_zip (tar_gz []) ;;
  c ← read_file path_to_python_model;
  write_file path_to_zip (tar_gz [(basename path_to_python_model, c)]) ;;
  mret path_to_zip.

Definition specify_model_meta_properties (client : APIClient)
    (model_name : string) : M model_meta_props :=
  software_spec_uid ← call (Software_specifications_get_uid_by_name "do_22.1");
  mret {| mm_NAME := model_name;
          mm_TYPE := "do-docplex_22.1";
          mm_SOFTWARE_SPEC_UID := software_spec_uid |}.

Definition publish (client : APIClient) (model_name model_python_path : string)
  : M json :=
  model_zip_path ← zip_model model_python_path model_name;
  model_meta_props ← specify_model_meta_properties client model_name;
  published_model ← call (Repository_store_model model_zip_path model_meta_props);
  call (Repository_get_model_id published_model).

Definition deploy (client : APIClient) (published_model_id : json)
    (deployment_name : string) (tags : option (list string))
    (description : string) (hardware_spec : option hardware_spec) : M json :=
  let hardware_spec :=
    match hardware_spec with
    | None => {| hw_name := "S"; hw_num_nodes := 1 |}
    | Some h => h
    end in
  let meta_data :=
    {| dm_NAME := deployment_name;
       dm_BATCH := JObj ∅;
       dm_HARDWARE_SPEC := hardware_spec;
       dm_DESCRIPTION := description;
       dm_TAGS := tags |} in
  deployment_details ← call (Deployments_create published_model_id meta_data);
  call (Deployments_get_id deployment_details).

(** [datetime.datetime.today().strftime('%Y-%m-%d')] *)
Definition today_str : M string := fun w => (Ok (today w), w).

Definition publish_and_deploy_model (wml_credentials : credentials)
    (model_python_path model_name : string) (tags : option (list string))
    (description : string) (delete_previous : bool) : M unit :=
  client ← get_wml_client wml_credentials;
  d1 ← today_str;
  let model_publication_name_plus_date := model_name +:+ " PUBLICATION- " +:+ d1 in
  d2 ← today_str;
  let model_deployment_name_plus_date := model_name +:+ " DEPLOYMENT - " +:+ d2 in
  (if delete_previous
   then delete_previous_publication_and_deployment client
   else mret tt) ;;
  published_model_id ← publish client model_publication_name_plus_date
                         model_python_path;
  store_publishing_id published_model_id ;;
  deployment_id ← deploy client published_model_id
                    model_deployment_name_plus_date tags description None;
  store_deployment_id deployment_id.

End Defs.
End utils.

(* ===================================================================== *)
(** * sample/model_deploy.py                                              *)
(* ===================================================================== *)

Module model_deploy.
Section Defs.
Context `{Platform}.

Definition main : M unit :=
  apikey ← utils.get_api_key;
  let wml_credentials :=
    {| cred_url := "https://eu-de.ml.cloud.ibm.com"; cred_apikey := apikey |} in
  let path_to_model := "model.py" in
  let model_name := "CAR PRODUCTION" in
  utils.publish_and_deploy_model wml_credentials path_to_model model_name
    (Some ["Sample"; "Opt"; "Cars"; "Produdction"])
    "A sample case to optimize the number of cars to produce under capacity constraints."
    true.

End Defs.
End model_deploy.

(* ===================================================================== *)
(** * sample/model.py                                                     *)
(* ===================================================================== *)

#[global] Instance result_ret : MRet result := fun A a => Ok a.
#[global] Instance result_bind : MBind result := fun A B f r =>
  match r with
  | Ok a => f a
  | Raise e => Raise e
  end.

(** [d[k] = v] on a dictionary that remembers insertion order. *)
Fixpoint dict_set {A} (k : cell) (v : A) (d : list (cell * A)) : list (cell * A) :=
  match d with
  | [] => [(k, v)]
  | (k', v') :: d' =>
      if decide (k' = k) then (k, v) :: d' else (k', v') :: dict_set k v d'
  end.

(** [dict(zip(keys, values))] *)
Definition dict_of {A} (kvs : list (cell * A)) : list (cell * A) :=
  foldl (fun d kv => dict_set kv.1 kv.2 d) [] kvs.

(** [d[k]] *)
Fixpoint dict_get {A} (k : cell) (d : list (cell * A)) : result A :=
  match d with
  | [] => Raise (KeyError (cell_str k))
  | (k', v) :: d' => if decide (k' = k) then Ok v else dict_get k d'
  end.

(** The engine only takes numbers as coefficients and bounds. *)
Definition to_number (v : locval) : result Z :=
  match v with
  | Scalar (CNum n) => Ok n
  | _ => Raise (DOcplexException "expecting a number")
  end.

(** [model.sum(f(x) for x in xs)] *)
Fixpoint model_sum_terms {A} (xs : list A) (f : A -> result lexpr)
  : result (list lexpr) :=
  match xs with
  | [] => Ok []
  | x :: xs' => t ← f x; ts ← model_sum_terms xs' f; Ok (t :: ts)
  end.

Definition model_sum {A} (xs : list A) (f : A -> result lexpr) : result lexpr :=
  ts ← model_sum_terms xs f; Ok (LSum ts).

(** [Model(name=...)]: a model with nothing in it. *)
Definition Model (name : string) : LPModel :=
  {| m_name := name; m_vars := []; m_constraints := []; m_kpis := [];
     m_objective := None; m_solution := None |}.

(** [model.continuous_var_dict(keys, name=..., key_format='__%s')]: one
    variable per key, named [name] followed by the formatted key. *)
Definition continuous_var_dict (keys : list cell) (name : string)
  : SE LPModel (list (cell * string)) := fun m =>
  let names := (fun k => name +:+ "__" +:+ cell_str k) <$> keys in
  (Ok (dict_of (zip keys names)),
   {| m_name := m_name m;
      m_vars := m_vars m ++
                ((fun n => {| v_name := n; v_lb := 0; v_ub := None |}) <$> names);
      m_constraints := m_constraints m; m_kpis := m_kpis m;
      m_objective := m_objective m; m_solution := m_solution m |}).

Definition add_constraint (c : lconstraint) : SE LPModel lconstraint := fun m =>
  (Ok c,
   {| m_name := m_name m; m_vars := m_vars m;
      m_constraints := m_constraints m ++ [c]; m_kpis := m_kpis m;
      m_objective := m_objective m; m_solution := m_solution m |}).

Definition add_kpi (e : lexpr) (publish_name : string) : SE LPModel unit := fun m =>
  (Ok tt,
   {| m_name := m_name m; m_vars := m_vars m;
      m_constraints := m_constraints m; m_kpis := m_kpis m ++ [(publish_name, e)];
      m_objective := m_objective m; m_solution := m_solution m |}).

Definition maximize (e : lexpr) : SE LPModel unit := fun m =>
  (Ok tt,
   {| m_name := m_name m; m_vars := m_vars m;
      m_constraints := m_constraints m; m_kpis := m_kpis m;
      m_objective := Some (Maximize e); m_solution := m_solution m |}).

(** [inputs[name]] *)
Definition input_frame (inputs : gmap string DataFrame) (name : string)
  : result DataFrame :=
  match inputs !! name with
  | Some df => Ok df
  | None => Raise (KeyError name)
  end.

(** [df.loc[label, column]] where a number is needed. *)
Definition loc_number (df : DataFrame) (label : cell) (column : string) : result Z :=
  v ← loc df label column; to_number v.

Module model.
Section Defs.
Context `{Platform}.

Definition os_listdir : M (list string) := fun w => (Ok (listdir w), w).

(** The loop of [get_all_inputs] over the selected files. *)
Fixpoint read_inputs (csv_files : list string) (result : gmap string DataFrame)
  : M (gmap string DataFrame) :=
  match csv_files with
  | [] => mret result
  | file_name :: rest =>
      in_stream ← read_file file_name;
      df ← lift (read_csv in_stream);
      let '(dataset_name, _) := splitext file_name in
      read_inputs rest (<[dataset_name := df]> result)
  end.

Definition get_all_inputs : M (gmap string DataFrame) :=
  names ← os_listdir;
  let csv_files :=
    List.filter (fun file_name => bool_decide ((splitext file_name).2 = ".csv"))
      names in
  read_inputs csv_files ∅.

(** The statements of [create_base_model] that act on the model object. *)
Definition formulate (requirement availability : DataFrame) : SE LPModel unit :=
  material_qty_to_produce ← continuous_var_dict (df_index requirement) "QtyToProduce";
  slacks ← continuous_var_dict (df_index requirement) "UnfulfilledDemand";
  let materials := material_qty_to_produce.*1 in
  for_each materials (fun m =>
    q ← lift (dict_get m material_qty_to_produce);
    s ← lift (dict_get m slacks);
    r ← lift (loc_number requirement m "RequiredThisWeek");
    add_constraint {| c_lhs := LPlus (LVar q) (LVar s); c_sense := GE;
                      c_rhs := LConst r |} ;;
    mret tt) ;;
  assembly_hours ← lift (model_sum materials (fun m =>
    a ← loc_number requirement m "AssemblyHours";
    q ← dict_get m material_qty_to_produce;
    Ok (LScale a (LVar q))));
  assembly_capacity ← lift (loc_number availability (CStr "Assembly") "Capacity");
  assembly_constraint ← add_constraint
    {| c_lhs := assembly_hours; c_sense := LE; c_rhs := LConst assembly_capacity |};
  painting_hours ← lift (model_sum materials (fun m =>
    a ← loc_number requirement m "PaintingHours";
    q ← dict_get m material_qty_to_produce;
    Ok (LScale a (LVar q))));
  painting_capacity ← lift (loc_number availability (CStr "Painting") "Capacity");
  painting_constraint ← add_constraint
    {| c_lhs := painting_hours; c_sense := LE; c_rhs := LConst painting_capacity |};
  projected_profit ← lift (model_sum materials (fun m =>
    a ← loc_number requirement m "ProfitMargin";
    q ← dict_get m material_qty_to_produce;
    Ok (LScale a (LVar q))));
  unfulfilled_demand ← lift (model_sum materials (fun m =>
    s ← dict_get m slacks; Ok (LVar s)));
  add_kpi projected_profit "Projected Profit" ;;
  add_kpi unfulfilled_demand "Unfulfilled Demand" ;;
  maximize projected_profit.

Definition create_base_model (inputs : gmap string DataFrame) : result LPModel :=
  product_info ← input_frame inputs "ProductInfo";
  requirement ← set_index product_info "ResourceName";
  availability_frame ← input_frame inputs "Availability";
  availability ← set_index availability_frame "Resource";
  match formulate requirement availability (Model "car_production") with
  | (Ok _, model) => Ok model
  | (Raise e, _) => Raise e
  end.

Definition solve_model (model : LPModel) : M LPModel :=
  emit (EvSolve model) ;;
  solution ← lift (cplex_solve model);
  mret {| m_name := m_name model; m_vars := m_vars model;
          m_constraints := m_constraints model; m_kpis := m_kpis model;
          m_objective := m_objective model; m_solution := solution |}.

(** [model.kpis_as_dict()]: each KPI evaluated in the solution. *)
Definition kpis_as_dict (model : LPModel) (s : Solution) : list (string * Z) :=
  (fun '(name, e) => (name, eval (solution_value s) e)) <$> m_kpis model.

(** The loop of [parse_solution] over the variables of the solution. *)
Fixpoint fill_solution (vars : Solution) (solution_df : DataFrame)
  : result DataFrame :=
  match vars with
  | [] => Ok solution_df
  | (name, value) :: rest =>
      match py_split "__" name with
      | [col; row] => fill_solution rest (set_loc solution_df (CStr row) col (CNum value))
      | _ => Raise (ValueError "wrong number of values to unpack")
      end
  end.

Definition parse_solution (model : LPModel) : result (list (string * DataFrame)) :=
  match m_solution model with
  | None => Raise (AttributeError "'NoneType' object has no attribute 'iter_variables'")
  | Some s =>
      solution_df ← fill_solution s empty_frame;
      Ok [("solution", solution_df);
          ("kpis", frame_of_scalars (kpis_as_dict model s))]
  end.

Definition outputs_to_csv (outputs : list (string * DataFrame)) : M unit :=
  for_each outputs (fun '(name, df) =>
    let csv_file := name +:+ ".csv" in
    emit (EvPrint csv_file) ;;
    write_file csv_file (to_csv false df)) ;;
  if decide (length outputs = O) then emit (EvLogWarning "No outputs written")
  else mret tt.

Definition main : M unit :=
  input_files ← get_all_inputs;
  model_formulation ← lift (create_base_model input_files);
  solved_model ← solve_model model_formulation;
  output_files ← lift (parse_solution solved_model);
  outputs_to_csv output_files.

End Defs.
End model.

(* ===================================================================== *)
(** * sample/model_execute.py                                             *)
(* ===================================================================== *)

(** [v == 'completed'] *)
Definition is_completed (v : json) : bool :=
  match v with
  | JStr s => bool_decide (s = "completed")
  | _ => false
  end.

(** [v == "solution.csv"] *)
Definition is_solution_csv (v : json) : bool :=
  match v with
  | JStr s => bool_decide (s = "solution.csv")
  | _ => false
  end.

(** What iterating over a value yields. *)
Definition py_iter (v : json) : result (list json) :=
  match v with
  | JArr l => Ok l
  | JObj o => Ok ((fun kv => JStr kv.1) <$> map_to_list o)
  | JStr s => Ok ((fun c => JStr (String c "")) <$> list_ascii_of_string s)
  | _ => Raise (TypeError "object is not iterable")
  end.

(** [next(output for output in outputs if output["id"] == "solution.csv")] *)
Fixpoint next_solution_csv (outputs : list json) : result json :=
  match outputs with
  | [] => Raise StopIteration
  | output :: rest =>
      id ← py_getitem output "id";
      if is_solution_csv id then Ok output else next_solution_csv rest
  end.

Definition cell_of_json (v : json) : result cell :=
  match v with
  | JNum n => Ok (CNum n)
  | JStr s => Ok (CStr s)
  | JNull => Ok CNaN
  | _ => Raise (ValueError "not a scalar")
  end.

Fixpoint map_result {A B} (f : A -> result B) (l : list A) : result (list B) :=
  match l with
  | [] => Ok []
  | a :: l' => b ← f a; bs ← map_result f l'; Ok (b :: bs)
  end.

Definition string_of_json (v : json) : result string :=
  match v with
  | JStr s => Ok s
  | _ => Raise (ValueError "not a column name")
  end.

(** [pd.DataFrame(data=values, columns=fields)] for the lists of a job's
    output entry. *)
Definition frame_of_json (values fields : json) : result DataFrame :=
  rows ← py_iter values;
  rows ← map_result (fun r => cs ← py_iter r; map_result cell_of_json cs) rows;
  names ← py_iter fields;
  names ← map_result string_of_json names;
  Ok (frame_of_rows rows names).

Module model_execute.
Section Defs.
Context `{Platform}.

Definition get_deployment_id : M json :=
  settings ← utils.load_from_disk utils.settings_path;
  lift (py_getitem settings "deployment_id").

Definition process_results (client : APIClient) (job_id : json) : M unit :=
  job_details_do ← call (Deployments_get_job_details job_id);
  entity ← lift (py_getitem job_details_do "entity");
  do ← lift (py_getitem entity "decision_optimization");
  solve_state ← lift (py_getitem do "solve_state");
  details ← lift (py_getitem solve_state "details");
  kpi ← lift (py_getitem details "KPI.Projected Profit");
  entity ← lift (py_getitem job_details_do "entity");
  do ← lift (py_getitem entity "decision_optimization");
  output_data ← lift (py_getitem do "output_data");
  outputs ← lift (py_iter output_data);
  decisions ← lift (next_solution_csv outputs);
  values ← lift (py_getitem decisions "values");
  fields ← lift (py_getitem decisions "fields");
  decision_df ← lift (frame_of_json values fields);
  write_file "solution.csv" (to_csv true decision_df) ;;
  emit (EvLogInfo [PText "projected profit: "; PJson kpi;
                   PText ", decisions: "; PFrame decision_df]).

Definition wait_longer (waited_for_n_seconds : Z) : M Z :=
  emit (EvSleep 10) ;;
  let waited_for_n_seconds := waited_for_n_seconds + 10 in
  mret waited_for_n_seconds.

Definition define_job_payload (client : APIClient)
    (inputs : gmap string DataFrame) : result job_payload :=
  availability ← input_frame inputs "Availability";
  product_info ← input_frame inputs "ProductInfo";
  Ok [ (INPUT_DATA,
        PItems [ {| item_id := "Availability.csv"; item_values := Some availability |};
                 {| item_id := "ProductInfo.csv"; item_values := Some product_info |} ]);
       (OUTPUT_DATA,
        PItems [ {| item_id := ".*.csv"; item_values := None |} ]) ].

(** [client.deployments.get_job_status(job_id).get('state')] *)
Definition job_state (client : APIClient) (job_id : json) : M json :=
  status ← call (Deployments_get_job_status job_id);
  lift (py_dict_get status "state").

(** Lines 55 to 71 of the script: everything up to the submission of the
    job.  [solve_parameters] is what the call of [get_solve_parameters] on
    line 57 returned. *)
Definition main_submit (solve_parameters : list (string * json))
  : M (APIClient * json) :=
  inputs ← model.get_all_inputs;
  let solve_parameters := solve_parameters in
  apikey ← utils.get_api_key;
  let wml_credentials :=
    {| cred_url := "https://eu-de.ml.cloud.ibm.com"; cred_apikey := apikey |} in
  client ← utils.get_wml_client wml_credentials;
  deployment_id ← get_deployment_id;
  job_payload_ref ← lift (define_job_payload client inputs);
  job ← call (Deployments_create_job deployment_id job_payload_ref);
  job_id ← call (Deployments_get_job_uid job);
  mret (client, job_id).

(** Lines 74 and 75: the [while] loop, run for at most [fuel] evaluations of
    its condition; [None] when they do not suffice. *)
Fixpoint main_wait (fuel : nat) (client : APIClient) (job_id : json)
    (elapsed_time : Z) : M (option Z) :=
  match fuel with
  | O => mret None
  | S fuel' =>
      state ← job_state client job_id;
      if negb (is_completed state) && (elapsed_time <? 300) then
        elapsed_time ← wait_longer elapsed_time;
        main_wait fuel' client job_id elapsed_time
      else mret (Some elapsed_time)
  end.

(** Lines 76 to 79. *)
Definition main_report (client : APIClient) (job_id : json) : M unit :=
  state ← job_state client job_id;
  if is_completed state then process_results client job_id
  else emit (EvPrint "Job hasn't completed successfully in 5 minutes.").

(** The script, given what [get_solve_parameters()] returns on line 57. *)
Definition script (solve_parameters : list (string * json)) (fuel : nat)
  : M (option unit) :=
  '(client, job_id) ← main_submit solve_parameters;
  let elapsed_time := 0 in
  waited ← main_wait fuel client job_id elapsed_time;
  match waited with
  | None => mret None
  | Some _ => main_report client job_id ;; mret (Some tt)
  end.

Definition main (fuel : nat) : M (option unit) :=
  script utils.get_solve_parameters fuel.

End Defs.
End model_execute.

(* ===================================================================== *)
(** * A small platform to run the scripts on                              *)
(* ===================================================================== *)

(** Files that hold a JSON document, a table, or text that is neither. *)
Inductive sample_content : Type :=
| HoldsJson (j : json)
| HoldsTable (df : DataFrame)
| HoldsText (s : string)
| HoldsArchive (members : list (string * sample_content)).

(** A cloud service that counts the status queries it has answered and
    reports the job as completed from the fourth one on; it refuses to
    delete deployments. *)
Definition sample_job_details : json :=
  JObj {[ "entity" := JObj {[ "decision_optimization" := JObj (list_to_map [
    ("solve_state", JObj {[ "details" := JObj {[ "KPI.Projected Profit" := JNum 71200 ]} ]});
    ("output_data", JArr [
       JObj (list_to_map [ ("id", JStr "kpis.csv");
                           ("fields", JArr [JStr "Name"; JStr "Value"]);
                           ("values", JArr [JArr [JStr "Projected Profit"; JNum 71200]]) ]);
       JObj (list_to_map [ ("id", JStr "solution.csv");
                           ("fields", JArr [JStr "QtyToProduce"; JStr "UnfulfilledDemand"]);
                           ("values", JArr [JArr [JNum 800; JNull];
                                            JArr [JNull; JNum 50]]) ]) ]) ]) ]} ]}.

Definition sample_wml (c : wml_call) (queries : nat) : result json * nat :=
  match c with
  | Deployments_get_job_status _ =>
      (Ok (JObj {[ "state" := JStr (if decide (3 <= queries)%nat
                                    then "completed" else "running") ]}),
       S queries)
  | Deployments_get_job_details _ => (Ok sample_job_details, queries)
  | Deployments_delete _ => (Raise (WMLClientError "deployment not found"), queries)
  | _ => (Ok (JStr "id-1"), queries)
  end.

Definition platform_on (service : wml_call -> nat -> result json * nat) : Platform :=
  {| Content := sample_content;
     json_load := fun c => match c with HoldsJson j => Some j | _ => None end;
     json_dump := HoldsJson;
     json_load_dump := fun j => eq_refl;
     pickle_load := fun c =>
       match c with HoldsJson j => Ok j | _ => Raise (ValueError "unpickling") end;
     read_csv := fun c =>
       match c with HoldsTable df => Ok df | _ => Raise (ValueError "parsing") end;
     to_csv := fun _ df => HoldsTable df;
     tar_gz := HoldsArchive;
     Cloud := nat;
     wml := service;
     cplex_solve := fun m => Ok (Some ((fun v => (v_name v, 1)) <$> m_vars m));
     project_root := "/srv/cars" |}.

Definition sample_platform : Platform := platform_on sample_wml.

(** A cloud service on which the job never leaves the state [running]. *)
Definition stalled_wml (c : wml_call) (queries : nat) : result json * nat :=
  match c with
  | Deployments_get_job_status _ =>
      (Ok (JObj {[ "state" := JStr "running" ]}), S queries)
  | _ => (Ok (JStr "id-1"), queries)
  end.

Definition stalled_platform : Platform := platform_on stalled_wml.

Definition sample_world (files : list (string * sample_content))
    (names : list string) : @World sample_platform :=
  @Build_World sample_platform (list_to_map files) names "2024-01-31" O [].

(* ===================================================================== *)
(** * Facts about strings and paths                                       *)
(* ===================================================================== *)

Lemma substring_skip (r x : string) (k m : nat) :
  substring (String.length r + k) m (r +:+ x) = substring k m x.
Proof. induction r as [|a r IH]; simpl; [reflexivity | exact IH]. Qed.

Lemma length_app (r x : string) :
  String.length (r +:+ x) = (String.length r + String.length x)%nat.
Proof. induction r as [|a r IH]; simpl; [reflexivity | now rewrite IH]. Qed.

Lemma py_last_app (n : nat) (r x : string) :
  (n <= String.length x)%nat -> py_last n (r +:+ x) = py_last n x.
Proof.
  intros Hn. unfold py_last. rewrite length_app.
  replace (String.length r + String.length x - n)%nat
    with (String.length r + (String.length x - n))%nat by lia.
  apply substring_skip.
Qed.

Lemma get_skip (r x : string) (k : nat) :
  String.get (String.length r + k) (r +:+ x) = String.get k x.
Proof. induction r as [|a r IH]; simpl; [reflexivity | exact IH]. Qed.

Lemma rfind_go_app (c : ascii) (r x : string) (i last : Z) :
  rfind_go c (r +:+ x) i last =
  rfind_go c x (i + Z.of_nat (String.length r)) (rfind_go c r i last).
Proof.
  revert i last. induction r as [|a r IH]; intros i last; simpl.
  - now rewrite Z.add_0_r.
  - rewrite IH. f_equal. lia.
Qed.

Lemma substring_all (p : string) : substring 0 (String.length p) p = p.
Proof. induction p as [|a p IH]; simpl; [reflexivity | now rewrite IH]. Qed.

(** Splitting a path and gluing the two parts gives the path back. *)
Lemma take_drop (d : nat) (p : string) : py_take d p +:+ py_drop d p = p.
Proof.
  unfold py_take, py_drop. revert d.
  induction p as [|a p IH]; intros [|d]; try reflexivity.
  - exact (f_equal (String a) (substring_all p)).
  - exact (f_equal (String a) (IH d)).
Qed.

Lemma splitext_glue (p name ext : string) :
  splitext p = (name, ext) -> p = name +:+ ext.
Proof.
  unfold splitext. case (_ && _); intros [= <- <-].
  - symmetry. apply take_drop.
  - clear. induction p as [|a p IH]; [reflexivity | exact (f_equal (String a) IH)].
Qed.

Lemma substring_keep (r x : string) (k : nat) :
  substring 0 (String.length r + k) (r +:+ x) = r +:+ substring 0 k x.
Proof.
  induction r as [|a r IH]; [reflexivity | exact (f_equal (String a) IH)].
Qed.

(** [root/settings.json] has the extension [.json], whatever the root. *)
Lemma splitext_settings (r : string) :
  splitext (r +:+ "/settings.json") = (r +:+ "/settings", ".json").
Proof.
  unfold splitext, rfind. rewrite !rfind_go_app. simpl rfind_go.
  set (n := String.length r).
  replace (Z.to_nat (0 + Z.of_nat n + 1)) with (n + 1)%nat by lia.
  replace (Z.to_nat (0 + Z.of_nat n + 1 + 1 + 1 + 1 + 1 + 1 + 1 + 1 + 1 -
                     (0 + Z.of_nat n + 1))) with 8%nat by lia.
  replace (Z.to_nat (0 + Z.of_nat n + 1 + 1 + 1 + 1 + 1 + 1 + 1 + 1 + 1))
    with (n + 9)%nat by lia.
  replace (0 + Z.of_nat n <? 0 + Z.of_nat n + 1 + 1 + 1 + 1 + 1 + 1 + 1 + 1 + 1)
    with true by (symmetry; apply Z.ltb_lt; lia).
  unfold has_non_dot, py_take, py_drop, n. rewrite get_skip, substring_keep.
  rewrite length_app.
  replace (String.length r + String.length "/settings.json" - (String.length r + 9))%nat
    with 5%nat by (simpl; lia).
  rewrite substring_skip. reflexivity.
Qed.

(* ===================================================================== *)
(** * Reasoning about effectful code                                      *)
(* ===================================================================== *)

Ltac unfold_m :=
  unfold mbind, mret, SE_bind, SE_ret, result_bind, result_ret,
    lift, raise, try_except in *.

Section EffectFacts.
Context `{Platform}.

(** The world after [evs] more events. *)
Definition after (w : World) (evs : list event) : World :=
  {| disk := disk w; listdir := listdir w; today := today w;
     cloud := cloud w; trace := trace w ++ evs |}.

Lemma emit_after (e : event) (w : World) : emit e w = (Ok tt, after w [e]).
Proof. reflexivity. Qed.

(** Reading a [.json] path: the file must exist and decode. *)
Lemma load_json (file_name : string) (w : World) :
  py_last 4 file_name <> ".pkl" -> py_last 5 file_name = ".json" ->
  utils.load_from_disk file_name w =
  match disk w !! file_name with
  | None => (Raise (FileNotFoundError file_name), w)
  | Some c =>
      match json_load c with
      | Some v => (Ok v, w)
      | None => (Raise (JSONDecodeError file_name), w)
      end
  end.
Proof.
  intros Hpkl Hjson. unfold utils.load_from_disk.
  destruct (decide (py_last 4 file_name = ".pkl")); [contradiction|].
  destruct (decide (py_last 5 file_name = ".json")); [|contradiction].
  unfold_m. unfold read_file.
  destruct (disk w !! file_name) as [c|]; [|reflexivity].
  now destruct (json_load c).
Qed.

Lemma load_settings (w : World) :
  utils.load_from_disk utils.settings_path w =
  match disk w !! utils.settings_path with
  | None => (Raise (FileNotFoundError utils.settings_path), w)
  | Some c =>
      match json_load c with
      | Some v => (Ok v, w)
      | None => (Raise (JSONDecodeError utils.settings_path), w)
      end
  end.
Proof.
  apply load_json; unfold utils.settings_path.
  - rewrite py_last_app by (simpl; lia). discriminate.
  - rewrite py_last_app by (simpl; lia). reflexivity.
Qed.

Lemma load_auth (w : World) :
  utils.load_from_disk utils.auth_path w =
  match disk w !! utils.auth_path with
  | None => (Raise (FileNotFoundError utils.auth_path), w)
  | Some c =>
      match json_load c with
      | Some v => (Ok v, w)
      | None => (Raise (JSONDecodeError utils.auth_path), w)
      end
  end.
Proof.
  apply load_json; unfold utils.auth_path.
  - rewrite py_last_app by (simpl; lia). discriminate.
  - rewrite py_last_app by (simpl; lia). reflexivity.
Qed.

(** The outcome of a getter, case by case. *)
Definition getter_outcome (path key missing_msg structure_msg : string)
    (w : World) : result json * World :=
  match disk w !! path with
  | None =>
      (Raise (FileNotFoundError missing_msg),
       after w [EvLogException (FileNotFoundError path)])
  | Some c =>
      match json_load c with
      | None =>
          (Raise (KeyError structure_msg),
           after w [EvLogException (JSONDecodeError path)])
      | Some (JObj o) =>
          match o !! key with
          | Some v => (Ok v, w)
          | None =>
              (Raise (KeyError structure_msg),
               after w [EvLogException (KeyError key)])
          end
      | Some v => (py_getitem v key, w)
      end
  end.

Lemma get_api_key_outcome (w : World) :
  utils.get_api_key w =
  getter_outcome utils.auth_path "api_key" utils.auth_missing_error_msg
    utils.auth_structure_error_msg w.
Proof.
  unfold utils.get_api_key, getter_outcome. unfold_m. rewrite load_auth.
  destruct (disk w !! utils.auth_path) as [c|]; [|reflexivity].
  destruct (json_load c) as [v|]; [|reflexivity].
  destruct v; try reflexivity. simpl. now destruct (o !! "api_key").
Qed.

Lemma get_project_id_outcome (w : World) :
  utils.get_project_id w =
  getter_outcome utils.settings_path "project_id" utils.settings_missing_error_msg
    (utils.settings_structure_error_msg "project_id" "PROJECT_ID_HERE") w.
Proof.
  unfold utils.get_project_id, getter_outcome. unfold_m. rewrite load_settings.
  destruct (disk w !! utils.settings_path) as [c|]; [|reflexivity].
  destruct (json_load c) as [v|]; [|reflexivity].
  destruct v; try reflexivity. simpl. now destruct (o !! "project_id").
Qed.

Lemma get_space_uid_outcome (w : World) :
  utils.get_space_uid w =
  getter_outcome utils.settings_path "space_uid" utils.settings_missing_error_msg
    (utils.settings_structure_error_msg "space_uid" "SPACE_UID") w.
Proof.
  unfold utils.get_space_uid, getter_outcome. unfold_m. rewrite load_settings.
  destruct (disk w !! utils.settings_path) as [c|]; [|reflexivity].
  destruct (json_load c) as [v|]; [|reflexivity].
  destruct v; try reflexivity. simpl. now destruct (o !! "space_uid").
Qed.

End EffectFacts.

(* ===================================================================== *)
(** * The events a computation adds to the trace                          *)
(* ===================================================================== *)

Section TraceFacts.
Context `{Platform}.

(** [m] only appends events, and each of them satisfies [P]. *)
Definition adds_only {A} (P : event -> Prop) (m : M A) : Prop :=
  forall w, exists evs, trace (m w).2 = trace w ++ evs /\ Forall P evs.

Lemma adds_only_ret {A} P (a : A) : adds_only P (mret a : M A).
Proof. intros w. exists []. simpl. now rewrite app_nil_r. Qed.

Lemma adds_only_raise {A} P (e : exn) : adds_only P (raise e : M A).
Proof. intros w. exists []. simpl. now rewrite app_nil_r. Qed.

Lemma adds_only_lift {A} P (r : result A) : adds_only P (lift r : M A).
Proof. intros w. exists []. simpl. now rewrite app_nil_r. Qed.

Lemma adds_only_bind {A B} P (m : M A) (f : A -> M B) :
  adds_only P m -> (forall a, adds_only P (f a)) -> adds_only P (m ≫= f).
Proof.
  intros Hm Hf w. unfold_m. destruct (Hm w) as (evs & Hevs & HP).
  destruct (m w) as [[a|e] w1]; simpl in Hevs.
  - destruct (Hf a w1) as (evs' & Hevs' & HP'). exists (evs ++ evs').
    rewrite Hevs', Hevs, app_assoc. split; [reflexivity|].
    apply Forall_app; auto.
  - exists evs. auto.
Qed.

Lemma adds_only_bind_lift {A B} P (r : result A) (f : A -> M B) :
  (forall a, r = Ok a -> adds_only P (f a)) -> adds_only P (lift r ≫= f).
Proof.
  intros Hf w. unfold_m. destruct r as [a|e].
  - exact (Hf a eq_refl w).
  - exists []. simpl. now rewrite app_nil_r.
Qed.

Lemma adds_only_try {A} P (m : M A) (h : exn -> option (M A)) :
  adds_only P m -> (forall e k, h e = Some k -> adds_only P k) ->
  adds_only P (try_except m h).
Proof.
  intros Hm Hh w. unfold try_except. destruct (Hm w) as (evs & Hevs & HP).
  destruct (m w) as [[a|e] w1]; simpl in Hevs.
  - exists evs. auto.
  - destruct (h e) as [k|] eqn:Hk.
    + destruct (Hh e k Hk w1) as (evs' & Hevs' & HP'). exists (evs ++ evs').
      rewrite Hevs', Hevs, app_assoc. split; [reflexivity|].
      apply Forall_app; auto.
    + exists evs. auto.
Qed.

Lemma adds_only_emit P (e : event) : P e -> adds_only P (emit e).
Proof. intros He w. exists [e]. split; [reflexivity | now constructor]. Qed.

Lemma adds_only_call P (c : wml_call) : P (EvCall c) -> adds_only P (call c).
Proof.
  intros Hc w. exists [EvCall c]. unfold call.
  destruct (wml c (cloud w)). split; [reflexivity | now constructor].
Qed.

Lemma adds_only_read_file P (path : string) : adds_only P (read_file path).
Proof.
  intros w. exists []. unfold read_file.
  destruct (disk w !! path); simpl; now rewrite app_nil_r.
Qed.

Lemma adds_only_write_file P (path : string) (c : Content) :
  adds_only P (write_file path c).
Proof. intros w. exists []. simpl. now rewrite app_nil_r. Qed.

Lemma adds_only_today P : adds_only P utils.today_str.
Proof. intros w. exists []. simpl. now rewrite app_nil_r. Qed.

Lemma adds_only_listdir P : adds_only P model.os_listdir.
Proof. intros w. exists []. simpl. now rewrite app_nil_r. Qed.

Lemma adds_only_for_each {A} P (xs : list A) (body : A -> M unit) :
  (forall x, adds_only P (body x)) -> adds_only P (for_each xs body).
Proof.
  intros Hb. induction xs as [|x xs IH]; simpl.
  - apply adds_only_ret.
  - apply adds_only_bind; auto.
Qed.

End TraceFacts.

Section HandlerFacts.
Context `{Platform}.

Lemma adds_only_try_getter {P} (m : M json) (mm sm : string) :
  (forall e, P (EvLogException e)) -> adds_only P m ->
  adds_only P (try_except m (utils.getter_handler mm sm)).
Proof.
  intros Hlog Hm. apply adds_only_try; [exact Hm|].
  intros e k Hk. destruct e; simpl in Hk; inversion Hk; subst;
    (apply adds_only_bind; [apply adds_only_emit, Hlog | intros ?; apply adds_only_raise]).
Qed.

Lemma adds_only_try_pass {P} (m : M unit) :
  (forall e, P (EvLogException e)) -> adds_only P m ->
  adds_only P (try_except m utils.log_and_pass).
Proof.
  intros Hlog Hm. apply adds_only_try; [exact Hm|].
  intros e k [= <-]. apply adds_only_emit, Hlog.
Qed.

End HandlerFacts.

(** Breaks a computation into its steps; what is left are the conditions
    on the events it emits and the calls it makes. *)
Ltac trace_steps :=
  repeat first
    [ apply adds_only_ret | apply adds_only_raise | apply adds_only_lift
    | apply adds_only_read_file | apply adds_only_write_file
    | apply adds_only_today | apply adds_only_listdir
    | apply adds_only_emit | apply adds_only_call
    | apply adds_only_bind_lift; intros ? ?
    | apply adds_only_bind; [|intros ?]
    | apply adds_only_for_each; intros ?
    | apply adds_only_try_getter; [intros ?|]
    | apply adds_only_try_pass; [intros ?|]
    | match goal with
      | |- adds_only _ (match ?x with _ => _ end) => destruct x
      | |- adds_only _ (if ?x then _ else _) => destruct x
      | |- adds_only _ (let '(_, _) := ?x in _) => destruct x
      end ].

Ltac unfold_utils :=
  unfold utils.publish_and_deploy_model, utils.get_wml_client,
    utils.delete_previous_publication_and_deployment,
    utils.delete_previous_deployment, utils.delete_previous_publication,
    utils.get_deployment_id, utils.get_publish_id,
    utils.publish, utils.deploy, utils.zip_model,
    utils.specify_model_meta_properties,
    utils.store_publishing_id, utils.store_deployment_id, utils.get_settings,
    utils.get_api_key, utils.get_project_id, utils.get_space_uid,
    utils.write_to_disk, utils.load_from_disk, logging_exception.

(* ===================================================================== *)
(** * Reading the credentials and the settings                            *)
(* ===================================================================== *)

(** The getters away from the one case they do not handle: a missing file
    gives [FileNotFoundError] with the file-missing message, a file that does
    not decode or an object without the key gives [KeyError] with the
    file-structure message, and an object with the key gives its value. *)
Lemma getter_outcome_handled `{Platform} (path key mm sm : string) (w : World) :
  (disk w !! path = None ->
   (getter_outcome path key mm sm w).1 = Raise (FileNotFoundError mm)) /\
  (forall c, disk w !! path = Some c -> json_load c = None ->
   (getter_outcome path key mm sm w).1 = Raise (KeyError sm)) /\
  (forall c o, disk w !! path = Some c -> json_load c = Some (JObj o) ->
   (getter_outcome path key mm sm w).1 =
   match o !! key with Some v => Ok v | None => Raise (KeyError sm) end).
Proof.
  unfold getter_outcome. repeat split.
  - now intros ->.
  - now intros c -> ->.
  - intros c o -> ->. now destruct (o !! key).
Qed.

(** The files of an installation whose [auth.json] holds the key as a bare
    JSON string and whose [settings.json] holds a JSON array. *)
Definition bare_files : list (string * sample_content) :=
  [ ("/srv/cars/auth.json", HoldsJson (JStr "0123456789abcdef"));
    ("/srv/cars/settings.json", HoldsJson (JArr [JStr "space-1"])) ].

(** C5: [get_api_key], [get_project_id] and [get_space_uid] on files that
    exist and hold valid JSON which is not an object: the lookup of the key
    raises [TypeError], which neither [except] clause catches, so the caller
    gets neither the [KeyError] with the file-structure message nor a
    value. *)
Theorem getters_leak_type_error :
  let w := sample_world bare_files [] in
  utils.get_api_key w = (Raise (TypeError "string indices must be integers"), w) /\
  utils.get_project_id w =
    (Raise (TypeError "list indices must be integers or slices, not str"), w) /\
  utils.get_space_uid w =
    (Raise (TypeError "list indices must be integers or slices, not str"), w).
Proof.
  cbv zeta. rewrite get_api_key_outcome, get_project_id_outcome, get_space_uid_outcome.
  repeat split; vm_compute; reflexivity.
Qed.

(* ===================================================================== *)
(** * Storing the identifiers                                             *)
(* ===================================================================== *)

Section StoreFacts.
Context `{Platform}.

(** The value [settings.json] holds under [k], when it holds a dictionary. *)
Definition settings_entry (w : World) (k : string) : option json :=
  match disk w !! utils.settings_path with
  | Some c =>
      match json_load c with
      | Some (JObj o) => o !! k
      | _ => None
      end
  | None => None
  end.

Definition with_disk (w : World) (d : gmap string Content) : World :=
  {| disk := d; listdir := listdir w; today := today w;
     cloud := cloud w; trace := trace w |}.

(** The outcome of storing [id] under [key], case by case. *)
Definition store_outcome (key : string) (id : json) (w : World)
  : result unit * World :=
  match disk w !! utils.settings_path with
  | None => (Raise (FileNotFoundError utils.settings_path), w)
  | Some c =>
      match json_load c with
      | None => (Raise (JSONDecodeError utils.settings_path), w)
      | Some v =>
          match py_setitem v key id with
          | Ok v' =>
              (Ok tt, with_disk w (<[utils.settings_path := json_dump v']> (disk w)))
          | Raise e => (Raise e, w)
          end
      end
  end.

Lemma write_settings (obj : json) (w : World) :
  utils.write_to_disk obj utils.settings_path w =
  (Ok tt, with_disk w (<[utils.settings_path := json_dump obj]> (disk w))).
Proof.
  unfold utils.write_to_disk, utils.settings_path.
  rewrite splitext_settings. reflexivity.
Qed.

Lemma store_deployment_id_outcome (id : json) (w : World) :
  utils.store_deployment_id id w = store_outcome "deployment_id" id w.
Proof.
  unfold utils.store_deployment_id, utils.get_settings, store_outcome. unfold_m.
  rewrite load_settings.
  destruct (disk w !! utils.settings_path) as [c|]; [|reflexivity].
  destruct (json_load c) as [v|]; [|reflexivity].
  destruct (py_setitem v "deployment_id" id); [|reflexivity].
  apply write_settings.
Qed.

Lemma store_publishing_id_outcome (id : json) (w : World) :
  utils.store_publishing_id id w = store_outcome "publishing_id" id w.
Proof.
  unfold utils.store_publishing_id, utils.get_settings, store_outcome. unfold_m.
  rewrite load_settings.
  destruct (disk w !! utils.settings_path) as [c|]; [|reflexivity].
  destruct (json_load c) as [v|]; [|reflexivity].
  destruct (py_setitem v "publishing_id" id); [|reflexivity].
  apply write_settings.
Qed.

(** What it means for an operation from [w] with outcome [out] to store
    [id] under [key] in [settings.json] and to touch nothing else. *)
Definition stores_only (key : string) (id : json) (w : World)
    (out : result unit * World) : Prop :=
  (forall k, k <> key -> settings_entry out.2 k = settings_entry w k) /\
  (forall p, p <> utils.settings_path -> disk out.2 !! p = disk w !! p) /\
  (forall c o,
     disk w !! utils.settings_path = Some c -> json_load c = Some (JObj o) ->
     out.1 = Ok tt /\
     disk out.2 !! utils.settings_path = Some (json_dump (JObj (<[key := id]> o))) /\
     settings_entry out.2 key = Some id) /\
  ((forall o, disk w !! utils.settings_path ≫= json_load <> Some (JObj o)) ->
   is_raised out.1 = true /\ out.2 = w) /\
  trace out.2 = trace w /\ cloud out.2 = cloud w.

Lemma store_outcome_stores_only (key : string) (id : json) (w : World) :
  stores_only key id w (store_outcome key id w).
Proof.
  assert (Hfail : forall e,
    (forall c o, disk w !! utils.settings_path = Some c ->
                 json_load c = Some (JObj o) -> False) ->
    stores_only key id w (Raise e, w)).
  { intros e Hno. unfold stores_only; simpl. repeat split; auto.
    all: exfalso; eauto. }
  unfold store_outcome.
  destruct (disk w !! utils.settings_path) as [c|] eqn:Hc.
  2:{ apply Hfail. intros; discriminate. }
  destruct (json_load c) as [v|] eqn:Hv.
  2:{ apply Hfail. intros c' o [= <-]. congruence. }
  destruct v as [| | | | |o]; simpl;
    try (apply Hfail; intros c' o' [= <-]; congruence).
  unfold stores_only, settings_entry; simpl.
  rewrite lookup_insert_eq, json_load_dump, Hc, Hv.
  split; [|split; [|split; [|split]]]; auto.
  - intros k Hk. now apply lookup_insert_ne.
  - intros p Hp. now apply lookup_insert_ne.
  - intros c' o' [= <-] Ho'. rewrite Hv in Ho'. injection Ho' as <-.
    repeat split. apply lookup_insert_eq.
  - intros Hno. now destruct (Hno o).
Qed.

(** C9: [store_deployment_id] and [store_publishing_id] read the dictionary
    of [settings.json], set their own key ([deployment_id], respectively
    [publishing_id]) and write the dictionary back: whatever the file held
    before, every other key keeps its value, as does every other file; when
    the file holds no dictionary the operation raises and writes nothing. *)
Theorem store_ids_keep_other_settings (id : json) (w : World) :
  stores_only "deployment_id" id w (utils.store_deployment_id id w) /\
  stores_only "publishing_id" id w (utils.store_publishing_id id w).
Proof.
  rewrite store_deployment_id_outcome, store_publishing_id_outcome.
  split; apply store_outcome_stores_only.
Qed.

End StoreFacts.

(* ===================================================================== *)
(** * Replacing a published and deployed model                            *)
(* ===================================================================== *)

Section DeploymentFacts.
Context `{Platform}.

(** What reading [key] from [settings.json] gives: the stored value, or the
    exception the reading raises. *)
Definition stored_id (w : World) (key : string) : result json :=
  match disk w !! utils.settings_path with
  | None => Raise (FileNotFoundError utils.settings_path)
  | Some c =>
      match json_load c with
      | None => Raise (JSONDecodeError utils.settings_path)
      | Some v => py_getitem v key
      end
  end.

(** The events of an attempt to delete what [stored] names, from [w]: when
    the identifier could not be read, the exception of the reading is
    logged; otherwise the deletion of that identifier is requested, and the
    exception the service answers with, if any, is logged. *)
Definition attempt_events (request : json -> wml_call) (stored : result json)
    (w : World) : list event :=
  match stored with
  | Raise e => [EvLogException e]
  | Ok id =>
      match (wml (request id) (cloud w)).1 with
      | Ok _ => [EvCall (request id)]
      | Raise e => [EvCall (request id); EvLogException e]
      end
  end.

(** The service after the attempt: it has seen the request, if one was made. *)
Definition attempt_cloud (request : json -> wml_call) (stored : result json)
    (w : World) : Cloud :=
  match stored with
  | Raise _ => cloud w
  | Ok id => (wml (request id) (cloud w)).2
  end.

(** The world an attempt leaves. *)
Definition attempted (request : json -> wml_call) (stored : result json)
    (w : World) : World :=
  {| disk := disk w; listdir := listdir w; today := today w;
     cloud := attempt_cloud request stored w;
     trace := trace w ++ attempt_events request stored w |}.

(** An attempt changes no file. *)
Definition same_files (w w' : World) : Prop :=
  disk w' = disk w /\ listdir w' = listdir w /\ today w' = today w.

Lemma get_deployment_id_stored (w : World) :
  utils.get_deployment_id w = (stored_id w "deployment_id", w).
Proof.
  unfold utils.get_deployment_id, utils.get_settings, stored_id. unfold_m.
  rewrite load_settings.
  destruct (disk w !! utils.settings_path) as [c|]; [|reflexivity].
  now destruct (json_load c).
Qed.

Lemma get_publish_id_stored (w : World) :
  utils.get_publish_id w = (stored_id w "publishing_id", w).
Proof.
  unfold utils.get_publish_id, utils.get_settings, stored_id. unfold_m.
  rewrite load_settings.
  destruct (disk w !! utils.settings_path) as [c|]; [|reflexivity].
  now destruct (json_load c).
Qed.

(** [delete_previous_deployment] never raises: it asks for the deletion of
    the stored deployment and logs whatever the reading or the service
    raised. *)
Lemma delete_previous_deployment_outcome (client : APIClient) (w : World) :
  utils.delete_previous_deployment client w =
  (Ok tt, attempted Deployments_delete (stored_id w "deployment_id") w).
Proof.
  unfold utils.delete_previous_deployment. unfold_m.
  rewrite get_deployment_id_stored.
  unfold attempted, attempt_events, attempt_cloud.
  destruct (stored_id w "deployment_id") as [id|e]; [|reflexivity].
  unfold call. destruct (wml (Deployments_delete id) (cloud w)) as [[j|e] cl].
  - reflexivity.
  - cbn. unfold logging_exception. rewrite emit_after. unfold after.
    cbn [disk listdir today cloud trace]. now rewrite <- app_assoc.
Qed.

Lemma delete_previous_publication_outcome (client : APIClient) (w : World) :
  utils.delete_previous_publication client w =
  (Ok tt, attempted Repository_delete (stored_id w "publishing_id") w).
Proof.
  unfold utils.delete_previous_publication. unfold_m.
  rewrite get_publish_id_stored.
  unfold attempted, attempt_events, attempt_cloud.
  destruct (stored_id w "publishing_id") as [id|e]; [|reflexivity].
  unfold call. destruct (wml (Repository_delete id) (cloud w)) as [[j|e] cl].
  - reflexivity.
  - cbn. unfold logging_exception. rewrite emit_after. unfold after.
    cbn [disk listdir today cloud trace]. now rewrite <- app_assoc.
Qed.

(** An attempt leaves the stored identifiers as they were. *)
Lemma stored_id_attempted request stored (w : World) (key : string) :
  stored_id (attempted request stored w) key = stored_id w key.
Proof. reflexivity. Qed.

(** Lines 167 to 171 of [publish_and_deploy_model]: publish, store the
    publication, deploy, store the deployment. *)
Definition publish_and_deploy_rest (client : APIClient)
    (model_python_path publication_name deployment_name : string)
    (tags : option (list string)) (description : string) : M unit :=
  published_model_id ← utils.publish client publication_name model_python_path;
  utils.store_publishing_id published_model_id ;;
  deployment_id ← utils.deploy client published_model_id deployment_name tags
                    description None;
  utils.store_deployment_id deployment_id.

(** [m] first emits [e]. *)
Definition starts_with {A} (e : event) (m : M A) : Prop :=
  forall w, exists evs, trace (m w).2 = trace w ++ e :: evs.

Lemma starts_with_emit {A} (e : event) (k : unit -> M A) :
  adds_only (fun _ => True) (k tt) -> starts_with e (emit e ≫= k).
Proof.
  intros Hk w. unfold_m. rewrite emit_after.
  destruct (Hk (after w [e])) as (evs & Hevs & _).
  exists evs. rewrite Hevs. simpl. now rewrite <- app_assoc.
Qed.

Lemma starts_with_bind {A B} (e : event) (m : M A) (f : A -> M B) :
  starts_with e m -> (forall a, adds_only (fun _ => True) (f a)) ->
  starts_with e (m ≫= f).
Proof.
  intros Hm Hf w. unfold_m. destruct (Hm w) as (evs & Hevs).
  destruct (m w) as [[a|x] w1]; simpl in Hevs.
  - destruct (Hf a w1) as (evs' & Hevs' & _). exists (evs ++ evs').
    rewrite Hevs', Hevs. now rewrite <- app_assoc.
  - exists evs. exact Hevs.
Qed.

Lemma rest_starts_publishing client path pub dep tags descr :
  starts_with (EvMakedirs pub)
    (publish_and_deploy_rest client path pub dep tags descr).
Proof.
  unfold publish_and_deploy_rest, utils.publish.
  apply starts_with_bind; [apply starts_with_bind; [apply starts_with_emit|]|].
  - trace_steps; exact I.
  - intros a. unfold_utils. trace_steps; exact I.
  - intros a. unfold_utils. trace_steps; exact I.
Qed.

(** A call that deletes something. *)
Definition is_delete (ev : event) : Prop :=
  match ev with
  | EvCall (Deployments_delete _) | EvCall (Repository_delete _) => True
  | _ => False
  end.

(** What [publish_and_deploy_model] does from [w] once [get_wml_client] has
    returned [client] in [w1].  [dep] and [pub] are the events of the two
    attempts, [wa] the world between them and [w2] the world after them. *)
Definition replaces_previous (wml_credentials : credentials)
    (model_python_path model_name : string) (tags : option (list string))
    (description : string) (w : World) (client : APIClient) (w1 : World) : Prop :=
  let publication_name := model_name +:+ " PUBLICATION- " +:+ today w1 in
  let deployment_name := model_name +:+ " DEPLOYMENT - " +:+ today w1 in
  let run delete_previous :=
    utils.publish_and_deploy_model wml_credentials model_python_path model_name
      tags description delete_previous w in
  let dep := attempt_events Deployments_delete (stored_id w1 "deployment_id") w1 in
  let wa := attempted Deployments_delete (stored_id w1 "deployment_id") w1 in
  let pub := attempt_events Repository_delete (stored_id w1 "publishing_id") wa in
  let w2 := attempted Repository_delete (stored_id w1 "publishing_id") wa in
  (* with [delete_previous=True] *)
  (utils.delete_previous_deployment client w1 = (Ok tt, wa) /\
   utils.delete_previous_publication client wa = (Ok tt, w2) /\
   utils.delete_previous_publication_and_deployment client w1 = (Ok tt, w2) /\
   trace w2 = trace w1 ++ dep ++ pub /\
   same_files w1 w2 /\
   run true = publish_and_deploy_rest client model_python_path publication_name
                deployment_name tags description w2 /\
   exists evs,
     trace (run true).2 = trace w1 ++ dep ++ pub ++ EvMakedirs publication_name :: evs) /\
  (* with [delete_previous=False] *)
  (run false = publish_and_deploy_rest client model_python_path publication_name
                 deployment_name tags description w1 /\
   exists evs, trace (run false).2 = trace w ++ evs /\
               Forall (fun ev => ~ is_delete ev) evs).

(** C6: once the client exists, [publish_and_deploy_model] with
    [delete_previous=True] attempts to delete the previous deployment and
    then the previous publication, each named by the identifier that
    [settings.json] holds; an attempt that cannot read its identifier logs
    the exception of the reading and asks for nothing, one whose request the
    service refuses logs the exception of the service; neither lets an
    exception out, and the publication and the deployment of the new model
    follow from the state the attempts leave.  With [delete_previous=False]
    no deletion is requested. *)
Theorem publish_and_deploy_deletes_first (wml_credentials : credentials)
    (model_python_path model_name : string) (tags : option (list string))
    (description : string) (w : World) (client : APIClient) (w1 : World) :
  utils.get_wml_client wml_credentials w = (Ok client, w1) ->
  replaces_previous wml_credentials model_python_path model_name tags
    description w client w1.
Proof.
  intros Hclient. unfold replaces_previous. cbv zeta.
  set (wa := attempted Deployments_delete (stored_id w1 "deployment_id") w1).
  set (w2 := attempted Repository_delete (stored_id w1 "publishing_id") wa).
  assert (Hdep : utils.delete_previous_deployment client w1 = (Ok tt, wa))
    by apply delete_previous_deployment_outcome.
  assert (Hpub : utils.delete_previous_publication client wa = (Ok tt, w2)).
  { rewrite delete_previous_publication_outcome.
    unfold wa at 1. now rewrite stored_id_attempted. }
  assert (Hdel : utils.delete_previous_publication_and_deployment client w1
                 = (Ok tt, w2)).
  { unfold utils.delete_previous_publication_and_deployment. unfold_m.
    now rewrite Hdep. }
  assert (Htrace : trace w2 =
            trace w1 ++
            attempt_events Deployments_delete (stored_id w1 "deployment_id") w1 ++
            attempt_events Repository_delete (stored_id w1 "publishing_id") wa).
  { unfold w2, attempted at 1. cbn [trace]. unfold wa at 1, attempted at 1.
    cbn [trace]. now rewrite <- app_assoc. }
  split.
  - assert (Hrun : utils.publish_and_deploy_model wml_credentials
                     model_python_path model_name tags description true w =
                   publish_and_deploy_rest client model_python_path
                     (model_name +:+ " PUBLICATION- " +:+ today w1)
                     (model_name +:+ " DEPLOYMENT - " +:+ today w1)
                     tags description w2).
    { unfold utils.publish_and_deploy_model. unfold_m. rewrite Hclient.
      unfold utils.today_str. rewrite Hdel. reflexivity. }
    destruct (rest_starts_publishing client model_python_path
                (model_name +:+ " PUBLICATION- " +:+ today w1)
                (model_name +:+ " DEPLOYMENT - " +:+ today w1)
                tags description w2) as [evs Hevs].
    split; [exact Hdep|]. split; [exact Hpub|]. split; [exact Hdel|].
    split; [exact Htrace|]. split; [now unfold same_files|].
    split; [exact Hrun|].
    exists evs. rewrite Hrun, Hevs, Htrace. now rewrite <- !app_assoc.
  - split.
    + unfold utils.publish_and_deploy_model. unfold_m. rewrite Hclient.
      reflexivity.
    + assert (Hno : adds_only (fun ev => ~ is_delete ev)
                (utils.publish_and_deploy_model wml_credentials model_python_path
                   model_name tags description false)).
      { unfold_utils. trace_steps; simpl; auto. }
      exact (Hno w).
Qed.

End DeploymentFacts.

(** An installation with stored identifiers and the model script. *)
Definition deployed_files : list (string * sample_content) :=
  [ ("/srv/cars/auth.json", HoldsJson (JObj {[ "api_key" := JStr "0123456789abcdef" ]}));
    ("/srv/cars/settings.json",
     HoldsJson (JObj (list_to_map [ ("space_uid", JStr "space-1");
                                    ("deployment_id", JStr "dep-0");
                                    ("publishing_id", JStr "pub-0");
                                    ("owner", JStr "planning") ])));
    ("model.py", HoldsText "import docplex") ].

Definition sample_credentials : credentials :=
  {| cred_url := "https://eu-de.ml.cloud.ibm.com";
     cred_apikey := JStr "0123456789abcdef" |}.

Lemma publish_and_deploy_deletes_first_witness :
  exists client w1,
    replaces_previous (H := sample_platform) sample_credentials "model.py"
      "CAR PRODUCTION" None "A sample case." (sample_world deployed_files [])
      client w1.
Proof.
  exists {| client_credentials := sample_credentials |},
    (utils.get_wml_client sample_credentials (sample_world deployed_files [])).2.
  apply publish_and_deploy_deletes_first.
  rewrite (surjective_pairing (utils.get_wml_client _ _)).
  f_equal; vm_compute; reflexivity.
Defined.

(** On the sample installation the stored deployment is asked to be
    deleted, the refusal of the service is logged, and the stored
    publication is asked to be deleted next.  Without [settings.json]
    nothing is asked: the two failed readings are logged. *)
Example delete_previous_sample :
  let client := {| client_credentials := sample_credentials |} in
  let out := utils.delete_previous_publication_and_deployment
               (H := sample_platform) client (sample_world deployed_files []) in
  let bare := utils.delete_previous_publication_and_deployment
                (H := sample_platform) client (sample_world [] []) in
  out.1 = Ok tt /\
  trace out.2 =
    [ EvCall (Deployments_delete (JStr "dep-0"));
      EvLogException (WMLClientError "deployment not found");
      EvCall (Repository_delete (JStr "pub-0")) ] /\
  bare.1 = Ok tt /\
  trace bare.2 =
    [ EvLogException (FileNotFoundError "/srv/cars/settings.json");
      EvLogException (FileNotFoundError "/srv/cars/settings.json") ].
Proof. cbv zeta. repeat split; vm_compute; reflexivity. Qed.

(* ===================================================================== *)
(** * Submitting a job and waiting for it                                 *)
(* ===================================================================== *)

Section ExecuteFacts.
Context `{Platform}.

Definition status_query (job_id : json) : event :=
  EvCall (Deployments_get_job_status job_id).

Lemma job_state_trace (client : APIClient) (job_id : json) (w : World) :
  let out := model_execute.job_state client job_id w in
  trace out.2 = trace w ++ [status_query job_id] /\ disk out.2 = disk w.
Proof.
  unfold model_execute.job_state, call. unfold_m.
  destruct (wml (Deployments_get_job_status job_id) (cloud w)) as [[st|e] cl];
    simpl; [|auto].
  destruct (py_dict_get st "state"); simpl; auto.
Qed.

Lemma wait_longer_outcome (waited_for_n_seconds : Z) (w : World) :
  model_execute.wait_longer waited_for_n_seconds w =
  (Ok (waited_for_n_seconds + 10), after w [EvSleep 10]).
Proof. reflexivity. Qed.

(** [waited n w w']: from [w], [n] times in a row the job was found not to
    be completed and the script slept ten seconds, which leads to [w']. *)
Inductive waited (client : APIClient) (job_id : json) : nat -> World -> World -> Prop :=
| waited_O w : waited client job_id O w w
| waited_S n w state w1 w' :
    model_execute.job_state client job_id w = (Ok state, w1) ->
    is_completed state = false ->
    waited client job_id n (after w1 [EvSleep 10]) w' ->
    waited client job_id (S n) w w'.

Lemma waited_trace client job_id n (w w' : World) :
  waited client job_id n w w' ->
  trace w' = trace w ++ mjoin (replicate n [status_query job_id; EvSleep 10]) /\
  disk w' = disk w.
Proof.
  induction 1 as [w | n w state w1 w' Hstate Hnot Hrest [IHt IHd]]; simpl.
  - now rewrite app_nil_r.
  - pose proof (job_state_trace client job_id w) as [Ht Hd].
    rewrite Hstate in Ht, Hd. simpl in *.
    rewrite IHt, IHd, Ht, Hd. now rewrite <- !app_assoc.
Qed.

(** How the loop ends when run from [w] with [elapsed_time = 10 * k]: after
    [n] more rounds the state is queried once more, and either the query
    fails, or the loop returns with [10 * (k + n)] on the counter because the
    job is completed or the counter has reached 300. *)
Definition wait_ends (client : APIClient) (job_id : json) (fuel k : nat)
    (w : World) (n : nat) (wn : World) : Prop :=
  waited client job_id n w wn /\
  match model_execute.job_state client job_id wn with
  | (Ok state, w') =>
      (is_completed state = true \/ (k + n = 30)%nat) /\
      model_execute.main_wait fuel client job_id (10 * Z.of_nat k) w =
      (Ok (Some (10 * Z.of_nat (k + n))), w')
  | (Raise e, w') =>
      model_execute.main_wait fuel client job_id (10 * Z.of_nat k) w = (Raise e, w')
  end.

Lemma main_wait_from client job_id (d : nat) :
  forall (k fuel : nat) (w : World),
    (k + d = 30)%nat -> (d < fuel)%nat ->
    exists n wn, (n <= d)%nat /\ wait_ends client job_id fuel k w n wn.
Proof.
  induction d as [|d IH]; intros k [|fuel] w Hk Hfuel; try lia.
  - exists O, w. split; [lia|]. split; [constructor|].
    simpl. unfold_m.
    destruct (model_execute.job_state client job_id w) as [[state|e] w1]; [|reflexivity].
    replace (10 * Z.of_nat k <? 300) with false by (symmetry; apply Z.ltb_ge; lia).
    rewrite andb_false_r, Nat.add_0_r. split; [right; lia | reflexivity].
  - destruct (model_execute.job_state client job_id w) as [[state|e] w1] eqn:Hstate.
    2:{ exists O, w. split; [lia|]. split; [constructor|].
        rewrite Hstate. simpl. unfold_m. now rewrite Hstate. }
    destruct (is_completed state) eqn:Hdone.
    { exists O, w. split; [lia|]. split; [constructor|].
      rewrite Hstate. simpl. unfold_m. rewrite Hstate, Hdone. simpl.
      rewrite Nat.add_0_r. auto. }
    destruct (IH (S k) fuel (after w1 [EvSleep 10])) as (n & wn & Hn & Hw & Hend);
      [lia | lia |].
    exists (S n), wn. split; [lia|]. split; [econstructor; eauto|].
    assert (Hstep : model_execute.main_wait (S fuel) client job_id (10 * Z.of_nat k) w =
                    model_execute.main_wait fuel client job_id
                      (10 * Z.of_nat (S k)) (after w1 [EvSleep 10])).
    { simpl model_execute.main_wait. unfold_m. rewrite Hstate, Hdone.
      replace (10 * Z.of_nat k <? 300) with true by (symmetry; apply Z.ltb_lt; lia).
      simpl. fold (after w1 [EvSleep 10]). f_equal. lia. }
    rewrite Hstep.
    destruct (model_execute.job_state client job_id wn) as [[state'|e'] w'];
      [|exact Hend].
    destruct Hend as [Hwhy Hres]. split.
    + destruct Hwhy; [now left | right; lia].
    + rewrite Hres. now replace (k + S n)%nat with (S k + n)%nat by lia.
Qed.

(** What the loop of the script does from [w], given enough [fuel]. *)
Definition wait_is_bounded (client : APIClient) (job_id : json) (fuel : nat)
    (w : World) : Prop :=
  exists n wn,
    (n <= 30)%nat /\
    wait_ends client job_id fuel O w n wn /\
    trace wn = trace w ++ mjoin (replicate n [status_query job_id; EvSleep 10]).

(** C3: every round of the polling loop sleeps ten seconds and adds ten to
    the counter, which starts at 0; the loop ends after at most 30 rounds,
    when the counter has reached 300, or before that at the first query that
    finds the job completed (or that fails). *)
Theorem main_wait_terminates (client : APIClient) (job_id : json) (fuel : nat)
    (w : World) :
  (30 < fuel)%nat -> wait_is_bounded client job_id fuel w.
Proof.
  intros Hfuel.
  destruct (main_wait_from client job_id 30 O fuel w) as (n & wn & Hn & Hends);
    [lia | lia |].
  exists n, wn. split; [exact Hn|]. split; [exact Hends|].
  destruct Hends as [Hw _]. now apply waited_trace in Hw as [-> _].
Qed.

Lemma starts_with_call {A} (c : wml_call) (k : json -> M A) :
  (forall j, adds_only (fun _ => True) (k j)) -> starts_with (EvCall c) (call c ≫= k).
Proof.
  intros Hk w. unfold_m. unfold call.
  destruct (wml c (cloud w)) as [[j|e] cl].
  - match goal with |- context [k j ?w1] => destruct (Hk j w1) as (evs & Hevs & _) end.
    exists evs. rewrite Hevs. simpl. now rewrite <- app_assoc.
  - exists []. reflexivity.
Qed.

Lemma process_results_starts (client : APIClient) (job_id : json) :
  starts_with (EvCall (Deployments_get_job_details job_id))
    (model_execute.process_results client job_id).
Proof.
  unfold model_execute.process_results. apply starts_with_call.
  intros j. trace_steps; exact I.
Qed.

Definition not_completed_msg : string :=
  "Job hasn't completed successfully in 5 minutes.".

(** What lines 76 to 79 do from [w]: after one more query of the state,
    [process_results] runs when the state is ['completed']; for any other
    state the message is printed and nothing else happens. *)
Definition reports (client : APIClient) (job_id : json) (w : World) : Prop :=
  let out := model_execute.main_report client job_id w in
  match model_execute.job_state client job_id w with
  | (Ok state, w1) =>
      (is_completed state = true ->
       out = model_execute.process_results client job_id w1) /\
      (is_completed state = false ->
       out = (Ok tt, after w1 [EvPrint not_completed_msg]) /\ disk out.2 = disk w) /\
      exists evs,
        trace out.2 = trace w ++ status_query job_id :: evs /\
        (is_completed state = true <->
         exists rest, evs = EvCall (Deployments_get_job_details job_id) :: rest) /\
        (is_completed state = false <-> evs = [EvPrint not_completed_msg])
  | (Raise e, w1) => out = (Raise e, w1)
  end.

(** C4: after the loop the state of the job is queried afresh;
    [process_results], whose first step asks for the details of the job, runs
    if and only if that state is ['completed']; for every other state the
    script only prints that the job has not completed, and no file is
    written. *)
Theorem main_report_iff_completed (client : APIClient) (job_id : json)
    (w : World) : reports client job_id w.
Proof.
  unfold reports. cbv zeta. unfold model_execute.main_report. unfold_m.
  pose proof (job_state_trace client job_id w) as [Ht Hd].
  destruct (model_execute.job_state client job_id w) as [[state|e] w1];
    [|reflexivity].
  simpl in Ht, Hd. destruct (is_completed state) eqn:Hdone.
  - split; [reflexivity|]. split; [discriminate|].
    destruct (process_results_starts client job_id w1) as [rest Hrest].
    exists (EvCall (Deployments_get_job_details job_id) :: rest).
    rewrite Hrest, Ht, <- app_assoc. split; [reflexivity|].
    split; split; eauto; discriminate.
  - split; [discriminate|]. split; [split; [reflexivity | exact Hd]|].
    exists [EvPrint not_completed_msg]. simpl. rewrite Ht, <- app_assoc.
    split; [reflexivity|]. split; split; auto; try discriminate.
    intros [rest [=]].
Qed.

(** When the details have the expected layout, [process_results] writes the
    table of the [solution.csv] entry to the file [solution.csv]. *)
Lemma process_results_writes (client : APIClient) (job_id : json) (w : World)
    (details entity do solve_state kpis kpi output_data decisions values fields : json)
    (outputs : list json) (decision_df : DataFrame) (cl : Cloud) :
  wml (Deployments_get_job_details job_id) (cloud w) = (Ok details, cl) ->
  py_getitem details "entity" = Ok entity ->
  py_getitem entity "decision_optimization" = Ok do ->
  py_getitem do "solve_state" = Ok solve_state ->
  py_getitem solve_state "details" = Ok kpis ->
  py_getitem kpis "KPI.Projected Profit" = Ok kpi ->
  py_getitem do "output_data" = Ok output_data ->
  py_iter output_data = Ok outputs ->
  next_solution_csv outputs = Ok decisions ->
  py_getitem decisions "values" = Ok values ->
  py_getitem decisions "fields" = Ok fields ->
  frame_of_json values fields = Ok decision_df ->
  let out := model_execute.process_results client job_id w in
  out.1 = Ok tt /\
  disk out.2 = <["solution.csv" := to_csv true decision_df]> (disk w).
Proof.
  intros Hcall He Hdo Hs Hk Hkpi Ho Hit Hnext Hv Hf Hdf.
  unfold model_execute.process_results, call. unfold_m.
  rewrite Hcall, He, Hdo, Hs, Hk, Hkpi, Ho, Hit, Hnext, Hv, Hf, Hdf.
  split; reflexivity.
Qed.

(* --------------------------------------------------------------------- *)
(** ** The payload of the job                                             *)
(* --------------------------------------------------------------------- *)

(** A payload that carries the two input tables and the output pattern, and
    nothing else. *)
Definition inputs_and_pattern_only (payload : job_payload) : Prop :=
  exists availability product_info,
    payload =
    [ (INPUT_DATA,
       PItems [ {| item_id := "Availability.csv"; item_values := Some availability |};
                {| item_id := "ProductInfo.csv"; item_values := Some product_info |} ]);
      (OUTPUT_DATA, PItems [ {| item_id := ".*.csv"; item_values := None |} ]) ].

Lemma define_job_payload_shape (client : APIClient)
    (inputs : gmap string DataFrame) (payload : job_payload) :
  model_execute.define_job_payload client inputs = Ok payload ->
  inputs_and_pattern_only payload /\
  (forall v, (SOLVE_PARAMETERS, v) ∉ payload).
Proof.
  unfold model_execute.define_job_payload, input_frame. unfold_m.
  destruct (inputs !! "Availability") as [a|]; [|discriminate].
  destruct (inputs !! "ProductInfo") as [p|]; [|discriminate].
  intros [= <-]. split; [now exists a, p|].
  intros v Hin. repeat (apply elem_of_cons in Hin as [[=]|Hin]).
  now apply elem_of_nil in Hin.
Qed.

(** Every job submitted carries such a payload. *)
Definition submits_inputs_only (ev : event) : Prop :=
  match ev with
  | EvCall (Deployments_create_job _ payload) =>
      inputs_and_pattern_only payload /\
      forall v, (SOLVE_PARAMETERS, v) ∉ payload
  | _ => True
  end.

Lemma read_inputs_trace P (csv_files : list string) (acc : gmap string DataFrame) :
  adds_only P (model.read_inputs csv_files acc).
Proof.
  revert acc. induction csv_files as [|f fs IH]; intros acc; simpl.
  - apply adds_only_ret.
  - trace_steps. apply IH.
Qed.

Lemma main_wait_trace P (client : APIClient) (job_id : json) (fuel : nat)
    (elapsed_time : Z) :
  P (status_query job_id) -> P (EvSleep 10) ->
  adds_only P (model_execute.main_wait fuel client job_id elapsed_time).
Proof.
  intros Hq Hs. revert elapsed_time.
  induction fuel as [|fuel IH]; intros elapsed_time; simpl.
  - apply adds_only_ret.
  - unfold model_execute.job_state, model_execute.wait_longer.
    trace_steps; auto.
Qed.

(** C10: the payload [define_job_payload] builds holds the two input tables
    under [INPUT_DATA] and the pattern under [OUTPUT_DATA], and no solve
    parameters; the value [get_solve_parameters] returned is not used by
    anything that follows, so two runs that differ only in it are the same
    run, and every job they submit carries that payload. *)
Theorem solve_parameters_never_reach_the_job
    (solve_parameters solve_parameters' : list (string * json)) (fuel : nat)
    (w : World) :
  model_execute.script solve_parameters fuel w =
  model_execute.script solve_parameters' fuel w /\
  exists evs,
    trace (model_execute.script solve_parameters fuel w).2 = trace w ++ evs /\
    Forall submits_inputs_only evs.
Proof.
  split; [reflexivity|].
  assert (Hrun : adds_only submits_inputs_only
                   (model_execute.script solve_parameters fuel)).
  { unfold model_execute.script, model_execute.main_submit,
      model_execute.main_report, model_execute.process_results,
      model_execute.job_state, model_execute.get_deployment_id,
      model.get_all_inputs.
    unfold_utils.
    trace_steps; simpl; try exact I.
    all: try apply read_inputs_trace.
    all: try (apply main_wait_trace; exact I).
    all: eapply define_job_payload_shape; eassumption.
  }
  exact (Hrun w).
Qed.

End ExecuteFacts.

Lemma main_wait_terminates_witness :
  wait_is_bounded (H := sample_platform)
    {| client_credentials := sample_credentials |} (JStr "job-1") 31
    (sample_world deployed_files []).
Proof. apply main_wait_terminates. lia. Defined.

(** On a cloud where the job stays [running] the loop makes its thirty
    rounds and returns with 300 on the counter. *)
Example main_wait_stalled :
  let out := model_execute.main_wait (H := stalled_platform) 31
               {| client_credentials := sample_credentials |} (JStr "job-1") 0
               (@Build_World stalled_platform ∅ [] "2024-01-31" O []) in
  out.1 = Ok (Some 300) /\
  trace out.2 =
    mjoin (replicate 30 [status_query (JStr "job-1"); EvSleep 10]) ++
    [status_query (JStr "job-1")].
Proof. cbv zeta. split; vm_compute; reflexivity. Qed.

(** On the sample cloud the job is completed at the fourth query: three
    rounds, thirty seconds on the counter. *)
Example main_wait_sample :
  (model_execute.main_wait (H := sample_platform) 31
     {| client_credentials := sample_credentials |} (JStr "job-1") 0
     (sample_world deployed_files [])).1 = Ok (Some 30).
Proof. vm_compute. reflexivity. Qed.

(* ===================================================================== *)
(** * Reading the input tables                                            *)
(* ===================================================================== *)

Section InputFacts.
Context `{Platform}.

(** The table a file parses to, when it exists and parses. *)
Definition parsed (w : World) (file_name : string) : option DataFrame :=
  match disk w !! file_name with
  | Some c => match read_csv c with Ok df => Some df | Raise _ => None end
  | None => None
  end.

Definition has_csv_extension (file_name : string) : bool :=
  bool_decide ((splitext file_name).2 = ".csv").

(** Every listed file with the extension [.csv] exists and parses. *)
Definition csv_files_readable (w : World) : bool :=
  forallb (fun f => negb (has_csv_extension f) || bool_decide (is_Some (parsed w f)))
    (listdir w).

(** Two files with the same extension and the same stem are the same file. *)
Lemma same_stem (f g ext : string) :
  (splitext f).2 = ext -> (splitext g).2 = ext ->
  (splitext f).1 = (splitext g).1 -> f = g.
Proof.
  destruct (splitext f) as [sf ef] eqn:Hf, (splitext g) as [sg eg] eqn:Hg.
  simpl. intros -> -> ->.
  apply splitext_glue in Hf, Hg. congruence.
Qed.

Lemma read_inputs_entries (csv_files : list string) :
  forall (acc : gmap string DataFrame) (w : World),
    Forall (fun f => (splitext f).2 = ".csv" /\ is_Some (parsed w f)) csv_files ->
    exists result,
      model.read_inputs csv_files acc w = (Ok result, w) /\
      forall k df,
        result !! k = Some df <->
        (exists f, f ∈ csv_files /\ (splitext f).1 = k /\ parsed w f = Some df) \/
        ((forall f, f ∈ csv_files -> (splitext f).1 <> k) /\ acc !! k = Some df).
Proof.
  induction csv_files as [|f fs IH]; intros acc w Hall.
  - exists acc. split; [reflexivity|]. intros k df. split.
    + intros Hk. right. split; [|exact Hk]. intros f Hf. now apply elem_of_nil in Hf.
    + intros [(f & Hf & _) | [_ Hk]]; [now apply elem_of_nil in Hf | exact Hk].
  - apply Forall_cons in Hall as [[Hext [df0 Hdf0]] Hall].
    simpl. unfold_m. unfold read_file. unfold parsed in Hdf0.
    destruct (disk w !! f) as [c|] eqn:Hc; [|discriminate].
    destruct (read_csv c) as [df1|] eqn:Hcsv; [|discriminate].
    injection Hdf0 as ->. destruct (splitext f) as [name ext] eqn:Hsplit.
    simpl in Hext. subst ext.
    destruct (IH (<[name := df0]> acc) w Hall) as (result & Hres & Hentries).
    exists result. split; [exact Hres|]. intros k df. rewrite Hentries.
    assert (Hf : parsed w f = Some df0) by (unfold parsed; now rewrite Hc, Hcsv).
    split.
    + intros [(g & Hg & Hk & Hp) | [Hnone Hk]].
      * left. exists g. split; [now apply elem_of_cons; right | auto].
      * destruct (decide (name = k)) as [->|Hne].
        -- rewrite lookup_insert_eq in Hk. injection Hk as <-.
           left. exists f. rewrite Hsplit. split; [apply elem_of_cons; now left | auto].
        -- rewrite lookup_insert_ne in Hk by exact Hne. right. split; [|exact Hk].
           intros g Hg. apply elem_of_cons in Hg as [->|Hg]; [|now apply Hnone].
           now rewrite Hsplit.
    + intros [(g & Hg & Hk & Hp) | [Hnone Hk]].
      * destruct (decide (Exists (fun g' => (splitext g').1 = k) fs)) as [Hex|Hno].
        -- apply Exists_exists in Hex as (g' & Hg' & Hk').
           left. exists g'. split; [exact Hg'|]. split; [exact Hk'|].
           apply elem_of_cons in Hg as [->|Hg].
           ++ rewrite Forall_forall in Hall. destruct (Hall g' Hg') as [Hext' _].
              assert (g' = f) as ->; [|congruence].
              apply (same_stem g' f ".csv"); [exact Hext' | now rewrite Hsplit | congruence].
           ++ rewrite Forall_forall in Hall.
              destruct (Hall g' Hg') as [Hext' _], (Hall g Hg) as [Hextg _].
              assert (g' = g) as ->; [|congruence].
              apply (same_stem g' g ".csv"); congruence.
        -- assert (Hnone : forall g', g' ∈ fs -> (splitext g').1 <> k).
           { intros g' Hg' Hk'. apply Hno, Exists_exists. eauto. }
           apply elem_of_cons in Hg as [->|Hg]; [|now destruct (Hnone g Hg)].
           right. split; [exact Hnone|]. rewrite Hsplit in Hk. simpl in Hk. subst k.
           rewrite lookup_insert_eq. congruence.
      * right. split; [intros g Hg; apply Hnone, elem_of_cons; now right|].
        rewrite lookup_insert_ne; [exact Hk|].
        intros ->. apply (Hnone f); [apply elem_of_cons; now left | now rewrite Hsplit].
Qed.

(** What [get_all_inputs] returns from [w]: the world is left as it was, and
    the dictionary holds, under each stem, the table of the listed [.csv]
    file with that stem, and nothing else. *)
Definition reads_csv_files (w : World) : Prop :=
  exists result,
    model.get_all_inputs w = (Ok result, w) /\
    forall k df,
      result !! k = Some df <->
      exists f, f ∈ listdir w /\ splitext f = (k, ".csv") /\ parsed w f = Some df.

(** C8: the dictionary [get_all_inputs] returns has an entry for a listed
    file exactly when [splitext] gives the file the extension [.csv]; the
    entry is keyed by the name without the extension and holds the table
    parsed from the file; there are no other entries. *)
Theorem get_all_inputs_entries (w : World) :
  csv_files_readable w = true -> reads_csv_files w.
Proof.
  intros Hok. unfold csv_files_readable in Hok. rewrite forallb_forall in Hok.
  unfold reads_csv_files, model.get_all_inputs, model.os_listdir. unfold_m.
  set (csv_files := List.filter _ (listdir w)).
  assert (Hall : Forall (fun f => (splitext f).2 = ".csv" /\ is_Some (parsed w f))
                   csv_files).
  { apply Forall_forall. intros f Hf. apply list_elem_of_In, filter_In in Hf as [Hin Hext].
    apply bool_decide_eq_true in Hext. split; [exact Hext|].
    specialize (Hok f Hin). unfold has_csv_extension in Hok.
    rewrite (bool_decide_eq_true_2 _ Hext) in Hok. simpl in Hok.
    now apply bool_decide_eq_true in Hok. }
  destruct (read_inputs_entries csv_files ∅ w Hall) as (result & Hres & Hentries).
  exists result. split; [exact Hres|]. intros k df. rewrite Hentries. split.
  - intros [(f & Hf & Hk & Hp) | [_ Hk]]; [|now rewrite lookup_empty in Hk].
    exists f. apply list_elem_of_In, filter_In in Hf as [Hin Hext].
    apply bool_decide_eq_true in Hext. split; [now apply list_elem_of_In|].
    split; [|exact Hp]. destruct (splitext f). simpl in *. congruence.
  - intros (f & Hf & Hsplit & Hp). left. exists f. split; [|now rewrite Hsplit].
    apply list_elem_of_In, filter_In. split; [now apply list_elem_of_In|].
    apply bool_decide_eq_true. now rewrite Hsplit.
Qed.

End InputFacts.

(** A folder with the two input tables among other files. *)
Definition availability_table : DataFrame :=
  {| df_index := [CNum 0; CNum 1];
     df_columns := [ ("Resource", [CStr "Assembly"; CStr "Painting"]);
                     ("Capacity", [CNum 1600; CNum 1200]) ] |}.

Definition product_info_table : DataFrame :=
  {| df_index := [CNum 0; CNum 1];
     df_columns := [ ("ResourceName", [CStr "CAR1"; CStr "CAR2"]);
                     ("RequiredThisWeek", [CNum 100; CNum 150]);
                     ("AssemblyHours", [CNum 2; CNum 3]);
                     ("PaintingHours", [CNum 1; CNum 2]);
                     ("ProfitMargin", [CNum 30; CNum 45]) ] |}.

Definition input_files : list (string * sample_content) :=
  [ ("Availability.csv", HoldsTable availability_table);
    ("ProductInfo.csv", HoldsTable product_info_table);
    ("model.py", HoldsText "import docplex");
    (".csv", HoldsText "hidden");
    ("notes.txt", HoldsText "x,y") ].

Definition input_folder : list string :=
  ["notes.txt"; "ProductInfo.csv"; ".csv"; "model.py"; "Availability.csv"].

Lemma get_all_inputs_entries_witness :
  reads_csv_files (H := sample_platform)
    (sample_world (deployed_files ++ input_files) input_folder).
Proof. apply get_all_inputs_entries. vm_compute. reflexivity. Defined.

Example get_all_inputs_sample :
  (model.get_all_inputs (H := sample_platform)
     (sample_world (deployed_files ++ input_files) input_folder)).1 =
  Ok (list_to_map [ ("Availability", availability_table);
                    ("ProductInfo", product_info_table) ]).
Proof. vm_compute. reflexivity. Qed.

(* ===================================================================== *)
(** * The production-planning model                                       *)
(* ===================================================================== *)

(** One row of [ProductInfo]. *)
Record product : Type := {
  p_name : cell;
  p_required : Z;
  p_assembly : Z;
  p_painting : Z;
  p_profit : Z
}.

Definition numbers {A} (f : A -> Z) (rows : list A) : list cell :=
  (fun r => CNum (f r)) <$> rows.

(** [df] is a [ProductInfo] table whose rows are [products]: the column
    [ResourceName] names each material once and the four other columns hold
    numbers. *)
Definition product_table (df : DataFrame) (products : list product) : Prop :=
  df_column df "ResourceName" = Some (p_name <$> products) /\
  df_column df "RequiredThisWeek" = Some (numbers p_required products) /\
  df_column df "AssemblyHours" = Some (numbers p_assembly products) /\
  df_column df "PaintingHours" = Some (numbers p_painting products) /\
  df_column df "ProfitMargin" = Some (numbers p_profit products) /\
  NoDup (p_name <$> products).

(** [df] is an [Availability] table whose rows are [resources]. *)
Definition capacity_table (df : DataFrame) (resources : list (cell * Z)) : Prop :=
  df_column df "Resource" = Some (resources.*1) /\
  df_column df "Capacity" = Some (numbers snd resources) /\
  NoDup (resources.*1).

Definition qty (m : cell) : string := "QtyToProduce" +:+ "__" +:+ cell_str m.
Definition slack (m : cell) : string := "UnfulfilledDemand" +:+ "__" +:+ cell_str m.

Definition continuous (name : string) : var_decl :=
  {| v_name := name; v_lb := 0; v_ub := None |}.

(** [QtyToProduce__m + UnfulfilledDemand__m >= RequiredThisWeek_m] *)
Definition demand_constraint (p : product) : lconstraint :=
  {| c_lhs := LPlus (LVar (qty (p_name p))) (LVar (slack (p_name p)));
     c_sense := GE;
     c_rhs := LConst (p_required p) |}.

(** [sum(f_m * QtyToProduce__m)] *)
Definition weighted (f : product -> Z) (products : list product) : lexpr :=
  LSum ((fun p => LScale (f p) (LVar (qty (p_name p)))) <$> products).

(** [sum(f_m * QtyToProduce__m) <= capacity] *)
Definition capacity_constraint (f : product -> Z) (products : list product)
    (capacity : Z) : lconstraint :=
  {| c_lhs := weighted f products; c_sense := LE; c_rhs := LConst capacity |}.

Definition total_slack (products : list product) : lexpr :=
  LSum ((fun p => LVar (slack (p_name p))) <$> products).

(** The model the script builds for these rows and capacities. *)
Definition car_production (products : list product) (assembly painting : Z)
  : LPModel :=
  {| m_name := "car_production";
     m_vars := ((fun p => continuous (qty (p_name p))) <$> products) ++
               ((fun p => continuous (slack (p_name p))) <$> products);
     m_constraints := (demand_constraint <$> products) ++
                      [ capacity_constraint p_assembly products assembly;
                        capacity_constraint p_painting products painting ];
     m_kpis := [ ("Projected Profit", weighted p_profit products);
                 ("Unfulfilled Demand", total_slack products) ];
     m_objective := Some (Maximize (weighted p_profit products));
     m_solution := None |}.

Section ModelFacts.

Lemma assoc_remove_other {A} (k k' : string) (l : list (string * A)) :
  k <> k' -> assoc k (assoc_remove k' l) = assoc k l.
Proof.
  intros Hne. induction l as [|[k0 a] l IH]; simpl; [reflexivity|].
  destruct (decide (k0 = k')) as [->|Hk0]; simpl.
  - destruct (decide (k' = k)); [congruence | reflexivity].
  - destruct (decide (k0 = k)); [reflexivity | exact IH].
Qed.

Lemma positions_absent (label : cell) (labels : list cell) (i : nat) :
  label ∉ labels -> positions label labels i = [].
Proof.
  revert i. induction labels as [|l ls IH]; intros i Hnot; simpl; [reflexivity|].
  apply not_elem_of_cons in Hnot as [Hne Hnot].
  destruct (decide (l = label)); [congruence | now apply IH].
Qed.

Lemma positions_unique (label : cell) (labels : list cell) (i k : nat) :
  NoDup labels -> labels !! i = Some label ->
  positions label labels k = [(k + i)%nat].
Proof.
  revert i k. induction labels as [|l ls IH]; intros i k Hnd Hi; [discriminate|].
  apply NoDup_cons in Hnd as [Hnot Hnd]. destruct i as [|i]; simpl in *.
  - injection Hi as ->. destruct (decide (label = label)); [|congruence].
    rewrite positions_absent by exact Hnot. now rewrite Nat.add_0_r.
  - destruct (decide (l = label)) as [->|Hne].
    + destruct Hnot. eapply list_elem_of_lookup_2; eauto.
    + rewrite (IH i (S k)); auto. f_equal. lia.
Qed.

(** With unique row labels, [df.loc[label, column]] is the number the
    column holds in the row of the label. *)
Lemma loc_number_row {A} (df : DataFrame) (column : string)
    (g : A -> cell) (f : A -> Z) (rows : list A) (r : A) :
  df_index df = g <$> rows -> df_column df column = Some (numbers f rows) ->
  NoDup (g <$> rows) -> r ∈ rows ->
  loc_number df (g r) column = Ok (f r).
Proof.
  intros Hix Hcol Hnd Hr. apply list_elem_of_lookup in Hr as [i Hi].
  unfold loc_number, loc. rewrite Hcol, Hix.
  rewrite (positions_unique (g r) (g <$> rows) i 0 Hnd)
    by (now rewrite list_lookup_fmap, Hi).
  unfold numbers. simpl. now rewrite list_lookup_fmap, Hi.
Qed.

Lemma dict_set_fresh {A} (k : cell) (v : A) (d : list (cell * A)) :
  k ∉ d.*1 -> dict_set k v d = d ++ [(k, v)].
Proof.
  induction d as [|[k' v'] d IH]; simpl; intros Hnot; [reflexivity|].
  apply not_elem_of_cons in Hnot as [Hne Hnot].
  destruct (decide (k' = k)); [congruence | now rewrite IH].
Qed.

Lemma dict_of_fresh {A} (kvs acc : list (cell * A)) :
  NoDup ((acc ++ kvs).*1) ->
  foldl (fun d kv => dict_set kv.1 kv.2 d) acc kvs = acc ++ kvs.
Proof.
  revert acc. induction kvs as [|[k v] kvs IH]; intros acc Hnd; simpl.
  - now rewrite app_nil_r.
  - rewrite dict_set_fresh.
    + rewrite IH; rewrite <- app_assoc; [reflexivity | exact Hnd].
    + rewrite fmap_app in Hnd. apply NoDup_app in Hnd as (_ & Hdis & _).
      intros Hin. apply (Hdis k Hin). simpl. apply elem_of_cons. now left.
Qed.

Lemma named_keys (keys : list cell) (name : cell -> string) :
  ((fun k => (k, name k)) <$> keys).*1 = keys.
Proof.
  induction keys as [|k ks IH]; [reflexivity | exact (f_equal (cons k) IH)].
Qed.

Lemma dict_of_named (keys : list cell) (name : cell -> string) :
  NoDup keys ->
  dict_of (zip keys (name <$> keys)) = (fun k => (k, name k)) <$> keys.
Proof.
  intros Hnd.
  assert (Hzip : zip keys (name <$> keys) = (fun k => (k, name k)) <$> keys).
  { clear. induction keys as [|k ks IH];
      [reflexivity | exact (f_equal (cons (k, name k)) IH)]. }
  rewrite Hzip. unfold dict_of. rewrite dict_of_fresh; [reflexivity|].
  simpl. now rewrite named_keys.
Qed.

Lemma dict_get_named (keys : list cell) (name : cell -> string) (k : cell) :
  k ∈ keys -> dict_get k ((fun k => (k, name k)) <$> keys) = Ok (name k).
Proof.
  induction keys as [|k' ks IH]; intros Hin; [now apply elem_of_nil in Hin|].
  simpl. destruct (decide (k' = k)) as [->|Hne]; [reflexivity|].
  apply elem_of_cons in Hin as [->|Hin]; [congruence | now apply IH].
Qed.

Lemma model_sum_rows {A} (rows : list A) (g : A -> cell)
    (f : cell -> result lexpr) (term : A -> lexpr) :
  (forall r, r ∈ rows -> f (g r) = Ok (term r)) ->
  model_sum (g <$> rows) f = Ok (LSum (term <$> rows)).
Proof.
  intros Hf. unfold model_sum.
  assert (Hterms : model_sum_terms (g <$> rows) f = Ok (term <$> rows)).
  { induction rows as [|r rs IH]; [reflexivity|].
    change (model_sum_terms (g <$> r :: rs) f)
      with (t ← f (g r); ts ← model_sum_terms (g <$> rs) f; Ok (t :: ts)).
    rewrite Hf by (apply elem_of_cons; now left).
    rewrite IH; [reflexivity|]. intros r' Hr'. apply Hf, elem_of_cons. now right. }
  now rewrite Hterms.
Qed.

(** The model with more constraints. *)
Definition constrained (m : LPModel) (cs : list lconstraint) : LPModel :=
  {| m_name := m_name m; m_vars := m_vars m;
     m_constraints := m_constraints m ++ cs; m_kpis := m_kpis m;
     m_objective := m_objective m; m_solution := m_solution m |}.

Lemma demand_loop (rows : list product) (body : cell -> SE LPModel unit) :
  (forall p m, p ∈ rows ->
     body (p_name p) m = (Ok tt, constrained m [demand_constraint p])) ->
  forall m, for_each (p_name <$> rows) body m =
            (Ok tt, constrained m (demand_constraint <$> rows)).
Proof.
  induction rows as [|p ps IH]; intros Hbody m.
  - simpl. unfold constrained. rewrite app_nil_r. now destruct m.
  - change (for_each (p_name <$> p :: ps) body m)
      with ((body (p_name p) ;; for_each (p_name <$> ps) body) m).
    unfold mbind, SE_bind. rewrite Hbody by (apply elem_of_cons; now left).
    rewrite IH.
    + unfold constrained; simpl. now rewrite <- app_assoc.
    + intros p' m' Hp'. apply Hbody, elem_of_cons. now right.
Qed.

(** On well-formed tables [create_base_model] returns the model
    [car_production]. *)
Lemma create_base_model_ok (inputs : gmap string DataFrame)
    (product_info availability : DataFrame) (products : list product)
    (resources : list (cell * Z)) (assembly painting : Z) :
  inputs !! "ProductInfo" = Some product_info ->
  inputs !! "Availability" = Some availability ->
  product_table product_info products ->
  capacity_table availability resources ->
  (CStr "Assembly", assembly) ∈ resources ->
  (CStr "Painting", painting) ∈ resources ->
  model.create_base_model inputs = Ok (car_production products assembly painting).
Proof.
  intros Hpi Hav (Hname & Hreq & Hasm & Hpnt & Hprofit & Hnd) (Hres & Hcap & Hnd')
    Hassembly Hpainting.
  unfold model.create_base_model, input_frame, set_index. unfold_m.
  rewrite Hpi, Hname, Hav, Hres.
  set (requirement := {| df_index := p_name <$> products;
                         df_columns := assoc_remove "ResourceName" (df_columns product_info) |}).
  set (capacities := {| df_index := resources.*1;
                        df_columns := assoc_remove "Resource" (df_columns availability) |}).
  assert (Hcol : forall column f,
            column <> "ResourceName" ->
            df_column product_info column = Some (numbers f products) ->
            forall p, p ∈ products ->
              loc_number requirement (p_name p) column = Ok (f p)).
  { intros column f Hne Hc p Hp.
    apply (loc_number_row requirement column p_name f products p); auto.
    unfold df_column, requirement; simpl. now rewrite assoc_remove_other. }
  assert (Hcapacity : forall label c,
            (label, c) ∈ resources ->
            loc_number capacities label "Capacity" = Ok c).
  { intros label c Hin.
    apply (loc_number_row capacities "Capacity" fst snd resources (label, c)); auto.
    unfold df_column, capacities; simpl. now rewrite assoc_remove_other. }
  unfold model.formulate, continuous_var_dict, Model. unfold_m. simpl df_index.
  cbn [m_name m_vars m_constraints m_kpis m_objective m_solution app].
  rewrite !dict_of_named by exact Hnd.
  rewrite named_keys.
  match goal with
  | |- context [for_each _ ?body ?m] =>
      pose proof (demand_loop products body) as Hloop;
      unfold mbind, SE_bind, mret, SE_ret, lift in Hloop;
      rewrite Hloop; clear Hloop
  end; unfold constrained;
  cbn [m_name m_vars m_constraints m_kpis m_objective m_solution app].
  2:{ intros p m Hp.
      rewrite !dict_get_named by (apply list_elem_of_fmap; eauto).
      rewrite (Hcol "RequiredThisWeek" p_required) by (auto; discriminate).
      reflexivity. }
  rewrite (model_sum_rows products p_name _
             (fun p => LScale (p_assembly p) (LVar (qty (p_name p))))).
  2:{ intros p Hp. rewrite (Hcol "AssemblyHours" p_assembly) by (auto; discriminate).
      unfold_m. now rewrite dict_get_named by (apply list_elem_of_fmap; eauto). }
  rewrite (Hcapacity _ _ Hassembly).
  rewrite (model_sum_rows products p_name _
             (fun p => LScale (p_painting p) (LVar (qty (p_name p))))).
  2:{ intros p Hp. rewrite (Hcol "PaintingHours" p_painting) by (auto; discriminate).
      unfold_m. now rewrite dict_get_named by (apply list_elem_of_fmap; eauto). }
  rewrite (Hcapacity _ _ Hpainting).
  rewrite (model_sum_rows products p_name _
             (fun p => LScale (p_profit p) (LVar (qty (p_name p))))).
  2:{ intros p Hp. rewrite (Hcol "ProfitMargin" p_profit) by (auto; discriminate).
      unfold_m. now rewrite dict_get_named by (apply list_elem_of_fmap; eauto). }
  rewrite (model_sum_rows products p_name _ (fun p => LVar (slack (p_name p)))).
  2:{ intros p Hp. unfold_m.
      now rewrite dict_get_named by (apply list_elem_of_fmap; eauto). }
  unfold car_production, add_constraint, add_kpi, maximize,
    capacity_constraint, weighted, total_slack.
  cbn [m_name m_vars m_constraints m_kpis m_objective m_solution app].
  rewrite <- !list_fmap_compose, <- !app_assoc. reflexivity.
Qed.

End ModelFacts.

(* --------------------------------------------------------------------- *)
(** ** What the expressions of the model denote                           *)
(* --------------------------------------------------------------------- *)

Fixpoint lexpr_induction (P : lexpr -> Prop)
    (Hvar : forall v, P (LVar v)) (Hconst : forall c, P (LConst c))
    (Hscale : forall c e, P e -> P (LScale c e))
    (Hplus : forall a b, P a -> P b -> P (LPlus a b))
    (Hsum : forall es, Forall P es -> P (LSum es)) (e : lexpr) : P e :=
  match e with
  | LVar v => Hvar v
  | LConst c => Hconst c
  | LScale c e' => Hscale c e' (lexpr_induction P Hvar Hconst Hscale Hplus Hsum e')
  | LPlus a b =>
      Hplus a b (lexpr_induction P Hvar Hconst Hscale Hplus Hsum a)
        (lexpr_induction P Hvar Hconst Hscale Hplus Hsum b)
  | LSum es =>
      Hsum es
        ((fix all (l : list lexpr) : Forall P l :=
            match l with
            | [] => @List.Forall_nil _ P
            | e' :: l' =>
                @List.Forall_cons _ P e' l'
                  (lexpr_induction P Hvar Hconst Hscale Hplus Hsum e') (all l')
            end) es)
  end.

Lemma vars_of_sum (es : list lexpr) (v : string) :
  v ∈ vars_of (LSum es) <-> exists e, e ∈ es /\ v ∈ vars_of e.
Proof.
  induction es as [|e es IH].
  - split; [intros Hin; now apply elem_of_nil in Hin|].
    intros (e & He & _). now apply elem_of_nil in He.
  - change (vars_of (LSum (e :: es))) with (vars_of e ++ vars_of (LSum es)).
    rewrite elem_of_app, IH. split.
    + intros [Hv | (e' & He' & Hv)].
      * exists e. split; [apply elem_of_cons; now left | exact Hv].
      * exists e'. split; [apply elem_of_cons; now right | exact Hv].
    + intros (e' & He' & Hv). apply elem_of_cons in He' as [->|He']; eauto.
Qed.

(** The value of an expression depends only on the variables it mentions. *)
Lemma eval_agree (sigma sigma' : string -> Z) (e : lexpr) :
  (forall v, v ∈ vars_of e -> sigma v = sigma' v) -> eval sigma e = eval sigma' e.
Proof.
  induction e as [v | c | c e IH | a b IHa IHb | es IH] using lexpr_induction;
    intros Hagree.
  - apply Hagree. simpl. apply list_elem_of_singleton. reflexivity.
  - reflexivity.
  - simpl. now rewrite IH.
  - simpl. rewrite IHa, IHb; [reflexivity | |];
      intros v Hv; apply Hagree; simpl; apply elem_of_app; auto.
  - induction es as [|e es IHes]; [reflexivity|].
    apply Forall_cons in IH as [He Hes].
    change (eval sigma (LSum (e :: es))) with (eval sigma e + eval sigma (LSum es)).
    change (eval sigma' (LSum (e :: es))) with (eval sigma' e + eval sigma' (LSum es)).
    rewrite He, IHes; [reflexivity | exact Hes | |].
    + intros v Hv. apply Hagree, vars_of_sum. apply vars_of_sum in Hv as (e' & He' & Hv).
      exists e'. split; [apply elem_of_cons; now right | exact Hv].
    + intros v Hv. apply Hagree, vars_of_sum.
      exists e. split; [apply elem_of_cons; now left | exact Hv].
Qed.

(** [sum(f_m * x_m)] denotes the sum of the products. *)
Lemma weighted_eval (sigma : string -> Z) (f : product -> Z) (products : list product) :
  eval sigma (weighted f products) =
  foldr (fun p acc => f p * sigma (qty (p_name p)) + acc) 0 products.
Proof.
  unfold weighted. induction products as [|p ps IH]; [reflexivity|].
  change (eval sigma (LSum ((fun p => LScale (f p) (LVar (qty (p_name p)))) <$> p :: ps)))
    with (f p * sigma (qty (p_name p)) +
          eval sigma (LSum ((fun p => LScale (f p) (LVar (qty (p_name p)))) <$> ps))).
  now rewrite IH.
Qed.

Lemma total_slack_eval (sigma : string -> Z) (products : list product) :
  eval sigma (total_slack products) =
  foldr (fun p acc => sigma (slack (p_name p)) + acc) 0 products.
Proof.
  unfold total_slack. induction products as [|p ps IH]; [reflexivity|].
  change (eval sigma (LSum ((fun p => LVar (slack (p_name p))) <$> p :: ps)))
    with (sigma (slack (p_name p)) +
          eval sigma (LSum ((fun p => LVar (slack (p_name p))) <$> ps))).
  now rewrite IH.
Qed.

(* --------------------------------------------------------------------- *)
(** ** Constraints and objective                                          *)
(* --------------------------------------------------------------------- *)

(** The constraints and the objective of the model built from [inputs]. *)
Definition formulation (inputs : gmap string DataFrame) (products : list product)
    (assembly painting : Z) : Prop :=
  exists model,
    model.create_base_model inputs = Ok model /\
    (forall p, p ∈ products -> demand_constraint p ∈ m_constraints model) /\
    m_constraints model =
      (demand_constraint <$> products) ++
      [ capacity_constraint p_assembly products assembly;
        capacity_constraint p_painting products painting ] /\
    m_objective model = Some (Maximize (weighted p_profit products)).

(** C2: on inputs that hold a [ProductInfo] table (one row per material,
    with the four numeric columns) and an [Availability] table with the rows
    [Assembly] and [Painting], [create_base_model] adds for every material
    the constraint [QtyToProduce__m + UnfulfilledDemand__m >=
    RequiredThisWeek_m], then one constraint [sum(AssemblyHours_m *
    QtyToProduce__m) <= Capacity_Assembly] and one constraint
    [sum(PaintingHours_m * QtyToProduce__m) <= Capacity_Painting], and sets
    the objective to maximise [sum(ProfitMargin_m * QtyToProduce__m)]. *)
Theorem create_base_model_formulation (inputs : gmap string DataFrame)
    (product_info availability : DataFrame) (products : list product)
    (resources : list (cell * Z)) (assembly painting : Z) :
  inputs !! "ProductInfo" = Some product_info ->
  inputs !! "Availability" = Some availability ->
  product_table product_info products ->
  capacity_table availability resources ->
  (CStr "Assembly", assembly) ∈ resources ->
  (CStr "Painting", painting) ∈ resources ->
  formulation inputs products assembly painting.
Proof.
  intros Hpi Hav Hproducts Hresources Hassembly Hpainting.
  exists (car_production products assembly painting). split.
  - eapply create_base_model_ok; eauto.
  - simpl. repeat split.
    intros p Hp. apply elem_of_app. left. apply list_elem_of_fmap. eauto.
Qed.

(* --------------------------------------------------------------------- *)
(** ** Indicators                                                         *)
(* --------------------------------------------------------------------- *)

(** The indicators of the model built from [inputs]. *)
Definition indicators (inputs : gmap string DataFrame) (products : list product)
  : Prop :=
  exists model,
    model.create_base_model inputs = Ok model /\
    m_kpis model = [ ("Projected Profit", weighted p_profit products);
                     ("Unfulfilled Demand", total_slack products) ] /\
    (forall name e v,
       (name, e) ∈ m_kpis model -> v ∈ vars_of e -> v ∈ v_name <$> m_vars model) /\
    (forall s s' : Solution,
       (forall v, v ∈ v_name <$> m_vars model ->
                  solution_value s v = solution_value s' v) ->
       model.kpis_as_dict model s = model.kpis_as_dict model s').

(** C7: [create_base_model] registers two indicators, [Projected Profit] =
    [sum(ProfitMargin_m * QtyToProduce__m)] and [Unfulfilled Demand] =
    [sum(UnfulfilledDemand__m)]; both mention only decision variables of the
    model, so two solutions that give these variables the same values give
    the indicators the same values. *)
Theorem create_base_model_kpis (inputs : gmap string DataFrame)
    (product_info availability : DataFrame) (products : list product)
    (resources : list (cell * Z)) (assembly painting : Z) :
  inputs !! "ProductInfo" = Some product_info ->
  inputs !! "Availability" = Some availability ->
  product_table product_info products ->
  capacity_table availability resources ->
  (CStr "Assembly", assembly) ∈ resources ->
  (CStr "Painting", painting) ∈ resources ->
  indicators inputs products.
Proof.
  intros Hpi Hav Hproducts Hresources Hassembly Hpainting.
  exists (car_production products assembly painting). split.
  { eapply create_base_model_ok; eauto. }
  split; [reflexivity|].
  assert (Hvars : forall name e v,
            (name, e) ∈ m_kpis (car_production products assembly painting) ->
            v ∈ vars_of e ->
            v ∈ v_name <$> m_vars (car_production products assembly painting)).
  { intros name e v Hin Hv. simpl in Hin. simpl m_vars. rewrite fmap_app, elem_of_app.
    apply elem_of_cons in Hin as [[= -> ->]|Hin].
    - left. apply vars_of_sum in Hv as (t & Ht & Hv).
      apply list_elem_of_fmap in Ht as (p & -> & Hp). simpl in Hv.
      apply list_elem_of_singleton in Hv as ->.
      apply list_elem_of_fmap. exists (continuous (qty (p_name p))).
      split; [reflexivity|]. apply list_elem_of_fmap. eauto.
    - apply elem_of_cons in Hin as [[= -> ->]|Hin]; [|now apply elem_of_nil in Hin].
      right. apply vars_of_sum in Hv as (t & Ht & Hv).
      apply list_elem_of_fmap in Ht as (p & -> & Hp). simpl in Hv.
      apply list_elem_of_singleton in Hv as ->.
      apply list_elem_of_fmap. exists (continuous (slack (p_name p))).
      split; [reflexivity|]. apply list_elem_of_fmap. eauto. }
  split; [exact Hvars|].
  intros s s' Hagree. unfold model.kpis_as_dict.
  apply list_fmap_ext. intros i [name e] Hi. f_equal.
  apply eval_agree. intros v Hv. apply Hagree.
  apply (Hvars name e v); [|exact Hv]. eapply list_elem_of_lookup_2; eauto.
Qed.

(** The rows of the sample tables. *)
Definition sample_products : list product :=
  [ {| p_name := CStr "CAR1"; p_required := 100; p_assembly := 2;
       p_painting := 1; p_profit := 30 |};
    {| p_name := CStr "CAR2"; p_required := 150; p_assembly := 3;
       p_painting := 2; p_profit := 45 |} ].

Definition sample_resources : list (cell * Z) :=
  [ (CStr "Assembly", 1600); (CStr "Painting", 1200) ].

Definition sample_inputs : gmap string DataFrame :=
  list_to_map [ ("Availability", availability_table);
                ("ProductInfo", product_info_table) ].

Lemma sample_product_table : product_table product_info_table sample_products.
Proof.
  repeat split; try reflexivity.
  apply (bool_decide_unpack _). vm_compute. exact I.
Qed.

Lemma sample_capacity_table : capacity_table availability_table sample_resources.
Proof.
  repeat split; try reflexivity.
  apply (bool_decide_unpack _). vm_compute. exact I.
Qed.

Lemma create_base_model_formulation_witness :
  formulation sample_inputs sample_products 1600 1200.
Proof.
  apply (create_base_model_formulation sample_inputs product_info_table
           availability_table sample_products sample_resources 1600 1200).
  - vm_compute. reflexivity.
  - vm_compute. reflexivity.
  - exact sample_product_table.
  - exact sample_capacity_table.
  - apply (bool_decide_unpack _). vm_compute. exact I.
  - apply (bool_decide_unpack _). vm_compute. exact I.
Defined.

Lemma create_base_model_kpis_witness : indicators sample_inputs sample_products.
Proof.
  apply (create_base_model_kpis sample_inputs product_info_table
           availability_table sample_products sample_resources 1600 1200).
  - vm_compute. reflexivity.
  - vm_compute. reflexivity.
  - exact sample_product_table.
  - exact sample_capacity_table.
  - apply (bool_decide_unpack _). vm_compute. exact I.
  - apply (bool_decide_unpack _). vm_compute. exact I.
Defined.

(** Without the row [Painting] in [Availability] no model is built. *)
Example create_base_model_without_painting :
  model.create_base_model
    (<["Availability" :=
         {| df_index := [CNum 0];
            df_columns := [ ("Resource", [CStr "Assembly"]);
                            ("Capacity", [CNum 1600]) ] |}]> sample_inputs) =
  Raise (KeyError "Painting").
Proof. vm_compute. reflexivity. Qed.

Example create_base_model_sample :
  model.create_base_model sample_inputs = Ok (car_production sample_products 1600 1200).
Proof. vm_compute. reflexivity. Qed.

(* ===================================================================== *)
(** * The model script as a whole                                         *)
(* ===================================================================== *)

Section PipelineFacts.
Context `{Platform}.

Lemma read_inputs_reads (csv_files : list string) :
  forall (acc : gmap string DataFrame) (w : World),
    (model.read_inputs csv_files acc w).2 = w.
Proof.
  induction csv_files as [|f fs IH]; intros acc w; [reflexivity|].
  simpl. unfold_m. unfold read_file.
  destruct (disk w !! f) as [c|]; [|reflexivity].
  destruct (read_csv c) as [df|]; [|reflexivity].
  destruct (splitext f) as [name ext]. apply IH.
Qed.

Lemma get_all_inputs_reads (w : World) : (model.get_all_inputs w).2 = w.
Proof.
  unfold model.get_all_inputs, model.os_listdir. unfold_m. apply read_inputs_reads.
Qed.

(** The stages of [main], each run on the result of the one before; a stage
    that raises ends the run. *)
Definition pipeline (w : World) : result unit * World :=
  match model.get_all_inputs w with
  | (Raise e, w1) => (Raise e, w1)
  | (Ok input_files, w1) =>
      match model.create_base_model input_files with
      | Raise e => (Raise e, w1)
      | Ok model_formulation =>
          match model.solve_model model_formulation w1 with
          | (Raise e, w2) => (Raise e, w2)
          | (Ok solved_model, w2) =>
              match model.parse_solution solved_model with
              | Raise e => (Raise e, w2)
              | Ok output_files => model.outputs_to_csv output_files w2
              end
          end
      end
  end.

(** What can be observed of a run in which every stage succeeds: the tables
    are read without changing anything, then the model built from them is
    solved, then the two tables parsed from the solved model are announced
    and written, [solution.csv] first. *)
Definition observed (w : World) : Prop :=
  forall input_files w1 model_formulation solved_model w2 output_files,
    model.get_all_inputs w = (Ok input_files, w1) ->
    model.create_base_model input_files = Ok model_formulation ->
    model.solve_model model_formulation w1 = (Ok solved_model, w2) ->
    model.parse_solution solved_model = Ok output_files ->
    exists solution_df kpis_df,
      output_files = [("solution", solution_df); ("kpis", kpis_df)] /\
      (model.main w).1 = Ok tt /\
      trace (model.main w).2 =
        trace w ++ [EvSolve model_formulation; EvPrint "solution.csv"; EvPrint "kpis.csv"] /\
      disk (model.main w).2 =
        <["kpis.csv" := to_csv false kpis_df]>
          (<["solution.csv" := to_csv false solution_df]> (disk w)).

(** C1: run as a script, [model.py] executes [get_all_inputs], then
    [create_base_model] on the inputs, then [solve_model] on the model, then
    [parse_solution] on the solved model, then [outputs_to_csv] on the parsed
    outputs, each stage on the result of the previous one. *)
Theorem main_runs_pipeline (w : World) :
  model.main w = pipeline w /\ observed w.
Proof.
  assert (Hmain : model.main w = pipeline w).
  { unfold model.main, pipeline. unfold_m.
    destruct (model.get_all_inputs w) as [[input_files|e] w1]; [|reflexivity].
    destruct (model.create_base_model input_files) as [m|e]; [|reflexivity].
    destruct (model.solve_model m w1) as [[solved|e] w2]; [|reflexivity].
    destruct (model.parse_solution solved) as [outs|e]; reflexivity. }
  split; [exact Hmain|].
  intros input_files w1 m solved w2 outs Hin Hm Hsolve Hparse.
  rewrite Hmain. unfold pipeline. rewrite Hin, Hm, Hsolve, Hparse.
  pose proof (get_all_inputs_reads w) as Hw. rewrite Hin in Hw. simpl in Hw. subst w1.
  unfold model.parse_solution in Hparse.
  destruct (m_solution solved) as [s|]; [|discriminate].
  unfold_m. destruct (model.fill_solution s empty_frame) as [solution_df|]; [|discriminate].
  injection Hparse as <-.
  exists solution_df, (frame_of_scalars (model.kpis_as_dict solved s)).
  unfold model.solve_model, emit in Hsolve. unfold_m.
  destruct (cplex_solve m) as [sol|]; [|discriminate].
  injection Hsolve as <- <-.
  repeat split. simpl. rewrite <- !app_assoc. reflexivity.
Qed.

End PipelineFacts.

(** The whole script on the sample folder: the engine is called on the model
    of the two tables, then the two result files are written. *)
Example main_sample :
  let out := model.main (H := sample_platform)
               (sample_world (deployed_files ++ input_files) input_folder) in
  out.1 = Ok tt /\
  trace out.2 = [ EvSolve (car_production sample_products 1600 1200);
                  EvPrint "solution.csv"; EvPrint "kpis.csv" ] /\
  disk out.2 !! "kpis.csv" =
    Some (HoldsTable {| df_index := [CNum 0];
                        df_columns := [ ("Projected Profit", [CNum 75]);
                                        ("Unfulfilled Demand", [CNum 2]) ] |}) /\
  disk out.2 !! "solution.csv" =
    Some (HoldsTable {| df_index := [CStr "CAR1"; CStr "CAR2"];
                        df_columns := [ ("QtyToProduce", [CNum 1; CNum 1]);
                                        ("UnfulfilledDemand", [CNum 1; CNum 1]) ] |}).
Proof. cbv zeta. repeat split; vm_compute; reflexivity. Qed.

(* ===================================================================== *)
(** * The other scripts on the sample installation                        *)
(* ===================================================================== *)

(** Storing a deployment identifier replaces the old one and keeps the
    other settings. *)
Example store_deployment_id_sample :
  let out := utils.store_deployment_id (H := sample_platform) (JStr "dep-1")
               (sample_world deployed_files []) in
  out.1 = Ok tt /\
  settings_entry out.2 "deployment_id" = Some (JStr "dep-1") /\
  settings_entry out.2 "publishing_id" = Some (JStr "pub-0") /\
  settings_entry out.2 "owner" = Some (JStr "planning") /\
  settings_entry out.2 "space_uid" = Some (JStr "space-1").
Proof. cbv zeta. repeat split; vm_compute; reflexivity. Qed.

(** With the key in place, [get_api_key] returns it; without the file it
    raises [FileNotFoundError] with the file-missing message. *)
Example get_api_key_sample :
  (utils.get_api_key (H := sample_platform) (sample_world deployed_files [])).1 =
    Ok (JStr "0123456789abcdef") /\
  (utils.get_api_key (H := sample_platform) (sample_world [] [])).1 =
    Raise (FileNotFoundError utils.auth_missing_error_msg).
Proof. split; vm_compute; reflexivity. Qed.

(** The job script on the sample installation: the job is submitted with
    the two tables, found completed at the fourth query, and its solution is
    written to [solution.csv]. *)
Example execute_sample :
  let out := model_execute.main (H := sample_platform) 31
               (sample_world (deployed_files ++ input_files) input_folder) in
  out.1 = Ok (Some tt) /\
  List.filter (fun ev => match ev with EvSleep _ => true | _ => false end) (trace out.2) =
    [EvSleep 10; EvSleep 10; EvSleep 10] /\
  disk out.2 !! "solution.csv" =
    Some (HoldsTable {| df_index := [CNum 0; CNum 1];
                        df_columns := [ ("QtyToProduce", [CNum 800; CNaN]);
                                        ("UnfulfilledDemand", [CNaN; CNum 50]) ] |}).
Proof. cbv zeta. repeat split; vm_compute; reflexivity. Qed.

(* ===================================================================== *)
(** * Further properties: files and settings                              *)
(* ===================================================================== *)

Section DiskFacts.
Context `{Platform}.

(** A successful step of a computation, read backwards. *)
Lemma bind_ok {S A B} (m : SE S A) (f : A -> SE S B) (s s' : S) (b : B) :
  (m ≫= f) s = (Ok b, s') ->
  exists a s1, m s = (Ok a, s1) /\ f a s1 = (Ok b, s').
Proof.
  unfold mbind, SE_bind. destruct (m s) as [[a|e] s1]; [eauto | discriminate].
Qed.

Lemma json_extension_suffix (file_name : string) :
  (splitext file_name).2 = ".json" ->
  py_last 5 file_name = ".json" /\ py_last 4 file_name <> ".pkl".
Proof.
  destruct (splitext file_name) as [name ext] eqn:Hsplit. simpl. intros ->.
  apply splitext_glue in Hsplit as ->. split.
  - now rewrite py_last_app by (simpl; lia).
  - rewrite py_last_app by (simpl; lia). discriminate.
Qed.

(** X1: [write_to_disk] writes [.json] files only.  On a path whose
    extension is anything else it raises [NotImplementedError] naming the
    extension and touches nothing; whenever it returns, the extension is
    [.json], the file holds the dump of the object and nothing else has
    changed, and [load_from_disk] on the same path returns the object. *)
Theorem write_to_disk_json_only (obj : json) (file_name : string) (w : World) :
  let extension := (splitext file_name).2 in
  (extension <> ".json" ->
   utils.write_to_disk obj file_name w =
     (Raise (NotImplementedError (extension +:+ " not implemented.")), w)) /\
  (forall w', utils.write_to_disk obj file_name w = (Ok tt, w') ->
     extension = ".json" /\
     w' = with_disk w (<[file_name := json_dump obj]> (disk w)) /\
     utils.load_from_disk file_name w' = (Ok obj, w')).
Proof.
  cbv zeta. unfold utils.write_to_disk.
  destruct (splitext file_name) as [name ext] eqn:Hsplit. cbn [snd].
  destruct (decide (ext = ".json")) as [Hext|Hext].
  - split; [intros Hno; contradiction|]. intros w' Hwrite.
    unfold write_file in Hwrite. injection Hwrite as <-.
    split; [exact Hext|]. split; [reflexivity|].
    destruct (json_extension_suffix file_name) as [Hjson Hpkl];
      [now rewrite Hsplit|].
    rewrite load_json by assumption. unfold with_disk. cbn [disk].
    now rewrite lookup_insert_eq, json_load_dump.
  - split; [reflexivity|]. intros w' Hwrite. discriminate Hwrite.
Qed.

Lemma store_outcome_ok (key : string) (id : json) (w w' : World) :
  store_outcome key id w = (Ok tt, w') ->
  settings_entry w' key = Some id /\
  (forall k, k <> key -> settings_entry w' k = settings_entry w k) /\
  trace w' = trace w /\ cloud w' = cloud w /\ today w' = today w.
Proof.
  intros Hstore.
  pose proof (store_outcome_stores_only key id w) as (Hframe & _ & Hset & _ & Htr & Hcl).
  unfold store_outcome in Hstore.
  destruct (disk w !! utils.settings_path) as [c|] eqn:Hc; [|discriminate].
  destruct (json_load c) as [v|] eqn:Hv; [|discriminate].
  destruct v as [| | | | |o]; try discriminate.
  destruct (Hset c o eq_refl Hv) as (_ & _ & Hentry).
  unfold store_outcome in Hframe, Hentry, Htr, Hcl. rewrite Hc, Hv in *.
  simpl in *. injection Hstore as <-. simpl. auto.
Qed.

Lemma get_id_outcome (key : string) (w : World) :
  ('(settings, _) ← utils.get_settings; lift (py_getitem settings key)) w =
  match disk w !! utils.settings_path with
  | None => (Raise (FileNotFoundError utils.settings_path), w)
  | Some c =>
      match json_load c with
      | None => (Raise (JSONDecodeError utils.settings_path), w)
      | Some v => (py_getitem v key, w)
      end
  end.
Proof.
  unfold utils.get_settings. unfold_m. rewrite load_settings.
  destruct (disk w !! utils.settings_path) as [c|]; [|reflexivity].
  now destruct (json_load c).
Qed.

Lemma get_id_of_entry (key : string) (id : json) (w : World) :
  settings_entry w key = Some id ->
  ('(settings, _) ← utils.get_settings; lift (py_getitem settings key)) w = (Ok id, w).
Proof.
  intros Hentry. rewrite get_id_outcome. unfold settings_entry in Hentry.
  destruct (disk w !! utils.settings_path) as [c|]; [|discriminate].
  destruct (json_load c) as [v|]; [|discriminate].
  destruct v; try discriminate. simpl. now rewrite Hentry.
Qed.

(** X3: the two functions called [get_deployment_id], the one of
    [utils.py] and the one of [model_execute.py], return the same result in
    every state of the files. *)
Theorem get_deployment_id_agree (w : World) :
  model_execute.get_deployment_id w = utils.get_deployment_id w.
Proof.
  unfold utils.get_deployment_id. rewrite get_id_outcome.
  unfold model_execute.get_deployment_id. unfold_m. rewrite load_settings.
  destruct (disk w !! utils.settings_path) as [c|]; [|reflexivity].
  now destruct (json_load c).
Qed.

(** What the two stores of [publish_and_deploy_model], run one after the
    other from [w], leave behind. *)
Definition ids_read_back (publishing_id deployment_id : json) (w : World) : Prop :=
  let out := (utils.store_publishing_id publishing_id ;;
              utils.store_deployment_id deployment_id) w in
  out.1 = Ok tt /\
  utils.get_publish_id out.2 = (Ok publishing_id, out.2) /\
  utils.get_deployment_id out.2 = (Ok deployment_id, out.2) /\
  (forall k, k <> "publishing_id" -> k <> "deployment_id" ->
             settings_entry out.2 k = settings_entry w k).

(** X2: when [settings.json] holds a dictionary, storing a publication
    identifier and then a deployment identifier succeeds, after which
    [get_publish_id] and [get_deployment_id] return these two identifiers
    and every other setting has the value it had. *)
Theorem stored_ids_are_read_back (publishing_id deployment_id : json)
    (w : World) (c : Content) (o : gmap string json) :
  disk w !! utils.settings_path = Some c -> json_load c = Some (JObj o) ->
  ids_read_back publishing_id deployment_id w.
Proof.
  intros Hc Ho. unfold ids_read_back. cbv zeta. unfold mbind, SE_bind.
  rewrite store_publishing_id_outcome.
  assert (Hfirst : exists w1, store_outcome "publishing_id" publishing_id w = (Ok tt, w1) /\
                     exists c1 o1, disk w1 !! utils.settings_path = Some c1 /\
                                   json_load c1 = Some (JObj o1)).
  { unfold store_outcome. rewrite Hc, Ho. simpl. eexists. split; [reflexivity|].
    simpl. rewrite lookup_insert_eq. eexists _, _. split; [reflexivity|].
    apply json_load_dump. }
  destruct Hfirst as (w1 & Hw1 & c1 & o1 & Hc1 & Ho1). rewrite Hw1.
  rewrite store_deployment_id_outcome.
  assert (Hsecond : exists w2, store_outcome "deployment_id" deployment_id w1 = (Ok tt, w2)).
  { unfold store_outcome. rewrite Hc1, Ho1. simpl. eauto. }
  destruct Hsecond as (w2 & Hw2). rewrite Hw2. simpl.
  apply store_outcome_ok in Hw1 as (Hp & Hframe1 & _).
  apply store_outcome_ok in Hw2 as (Hd & Hframe2 & _).
  split; [reflexivity|]. split; [|split].
  - apply get_id_of_entry. rewrite Hframe2 by discriminate. exact Hp.
  - apply get_id_of_entry. exact Hd.
  - intros k Hk1 Hk2. rewrite Hframe2 by exact Hk2. now apply Hframe1.
Qed.

End DiskFacts.

(** A text file is refused by name, and so is the hidden file [.json],
    whose extension is empty. *)
Example write_to_disk_refuses :
  let obj := JObj {[ "owner" := JStr "planning" ]} in
  (utils.write_to_disk (H := sample_platform) obj "notes.txt" (sample_world [] [])).1 =
    Raise (NotImplementedError ".txt not implemented.") /\
  (utils.write_to_disk (H := sample_platform) obj ".json" (sample_world [] [])).1 =
    Raise (NotImplementedError " not implemented.").
Proof. cbv zeta. split; vm_compute; reflexivity. Qed.

Lemma stored_ids_are_read_back_witness :
  ids_read_back (H := sample_platform) (JStr "pub-1") (JStr "dep-1")
    (sample_world deployed_files []).
Proof.
  eapply (stored_ids_are_read_back (H := sample_platform) _ _ _ _
            (list_to_map [ ("space_uid", JStr "space-1");
                           ("deployment_id", JStr "dep-0");
                           ("publishing_id", JStr "pub-0");
                           ("owner", JStr "planning") ])).
  - vm_compute. reflexivity.
  - reflexivity.
Defined.

(* ===================================================================== *)
(** * Further properties: the client and the deployment                   *)
(* ===================================================================== *)

Section ClientFacts.
Context `{Platform}.

Lemma after_nothing (w : World) : after w [] = w.
Proof. destruct w. unfold after. simpl. now rewrite app_nil_r. Qed.


(** An event that is an entry of the log. *)
Definition is_logged (ev : event) : Prop := exists e, ev = EvLogException e.

(** [get_wml_client] stopped before it reached the cloud. *)
Definition stops_before_the_cloud (wml_credentials : credentials) (w : World)
  : Prop :=
  exists e evs,
    utils.get_wml_client wml_credentials w = (Raise e, after w evs) /\
    Forall is_logged evs.

(** X4: when [settings.json] gives no [space_uid] (the file is missing, does
    not decode, holds no dictionary or lacks the key), [get_wml_client]
    raises without creating the client: the cloud is not called and the
    only events are entries of the log. *)
Theorem get_wml_client_needs_space_uid (wml_credentials : credentials)
    (w : World) :
  settings_entry w "space_uid" = None -> stops_before_the_cloud wml_credentials w.
Proof.
  intros Hnone. unfold stops_before_the_cloud, utils.get_wml_client.
  unfold mbind, SE_bind. rewrite get_space_uid_outcome.
  unfold getter_outcome. unfold settings_entry in Hnone.
  destruct (disk w !! utils.settings_path) as [c|].
  2:{ eexists _, [_]. split; [reflexivity|]. repeat constructor. now eexists. }
  destruct (json_load c) as [v|].
  2:{ eexists _, [_]. split; [reflexivity|]. repeat constructor. now eexists. }
  destruct v as [| | | | |o]; simpl;
    try (eexists _, []; rewrite after_nothing; split; [reflexivity | constructor]).
  rewrite Hnone. eexists _, [_]. split; [reflexivity|]. repeat constructor. now eexists.
Qed.

(** X5: without [auth.json] the deployment script raises
    [FileNotFoundError] with the file-missing message; the failure is logged
    and nothing else happens: no call reaches the cloud and no file is
    written. *)
Theorem model_deploy_needs_auth (w : World) :
  disk w !! utils.auth_path = None ->
  model_deploy.main w =
  (Raise (FileNotFoundError utils.auth_missing_error_msg),
   after w [EvLogException (FileNotFoundError utils.auth_path)]).
Proof.
  intros Hnone. unfold model_deploy.main. unfold mbind, SE_bind.
  rewrite get_api_key_outcome. unfold getter_outcome. now rewrite Hnone.
Qed.





End ClientFacts.

Lemma with_final_state {A B} (x : A * B) (a : A) : x.1 = a -> x = (a, x.2).
Proof. destruct x. simpl. now intros ->. Qed.

Lemma get_wml_client_needs_space_uid_witness :
  stops_before_the_cloud (H := sample_platform) sample_credentials
    (sample_world bare_files []).
Proof. apply get_wml_client_needs_space_uid. vm_compute. reflexivity. Defined.

Lemma model_deploy_needs_auth_witness :
  model_deploy.main (H := sample_platform) (sample_world [] []) =
  (Raise (FileNotFoundError utils.auth_missing_error_msg),
   after (sample_world [] [])
     [EvLogException (FileNotFoundError (utils.auth_path (H := sample_platform)))]).
Proof. apply model_deploy_needs_auth. vm_compute. reflexivity. Defined.


(* ===================================================================== *)
(** * Further properties: the inputs and the model                        *)
(* ===================================================================== *)

Section InputFailure.
Context `{Platform}.

Lemma read_inputs_fails (names : list string) :
  forall (acc : gmap string DataFrame) (w : World),
    forallb (fun f => negb (has_csv_extension f) || bool_decide (is_Some (parsed w f)))
      names = false ->
    exists e,
      model.read_inputs
        (List.filter (fun f => bool_decide ((splitext f).2 = ".csv")) names) acc w
      = (Raise e, w).
Proof.
  induction names as [|f fs IH]; intros acc w Hbad; [discriminate|].
  cbn [forallb List.filter] in *. unfold has_csv_extension in Hbad at 1.
  destruct (bool_decide ((splitext f).2 = ".csv")) eqn:Hext; simpl in Hbad.
  2:{ now apply IH. }
  cbn [model.read_inputs]. unfold_m. unfold read_file.
  destruct (disk w !! f) as [c|] eqn:Hc; [|eauto].
  destruct (read_csv c) as [df|e] eqn:Hcsv; [|eauto].
  assert (Hf : parsed w f = Some df) by (unfold parsed; now rewrite Hc, Hcsv).
  rewrite Hf, bool_decide_eq_true_2 in Hbad by eauto. simpl in Hbad.
  destruct (splitext f) as [name ext]. now apply IH.
Qed.

(** X7: when a listed file with the extension [.csv] is missing or does not
    parse, [get_all_inputs] raises instead of returning the tables it could
    read, and leaves everything as it was. *)
Theorem get_all_inputs_fails_unreadable (w : World) :
  csv_files_readable w = false -> exists e, model.get_all_inputs w = (Raise e, w).
Proof.
  intros Hbad. unfold model.get_all_inputs, model.os_listdir. unfold_m.
  now apply read_inputs_fails.
Qed.

End InputFailure.

Lemma get_all_inputs_fails_unreadable_witness :
  exists e, model.get_all_inputs (H := sample_platform)
              (sample_world input_files ("Demand.csv" :: input_folder)) =
            (Raise e, sample_world input_files ("Demand.csv" :: input_folder)).
Proof. apply get_all_inputs_fails_unreadable. vm_compute. reflexivity. Defined.

(* --------------------------------------------------------------------- *)
(** ** The variables of the model                                         *)
(* --------------------------------------------------------------------- *)

(** Every variable [e] mentions is a variable of [model]. *)
Definition declared_in (model : LPModel) (e : lexpr) : Prop :=
  forall v, v ∈ vars_of e -> v ∈ v_name <$> m_vars model.

(** The variables of the model built from [inputs], and where they occur. *)
Definition declares_its_variables (inputs : gmap string DataFrame)
    (products : list product) : Prop :=
  exists model,
    model.create_base_model inputs = Ok model /\
    m_vars model =
      ((fun p => continuous (qty (p_name p))) <$> products) ++
      ((fun p => continuous (slack (p_name p))) <$> products) /\
    Forall (fun v => v_lb v = 0 /\ v_ub v = None) (m_vars model) /\
    Forall (fun c => declared_in model (c_lhs c) /\ declared_in model (c_rhs c))
      (m_constraints model) /\
    (forall e, m_objective model = Some (Maximize e) -> declared_in model e).

Lemma weighted_declared (f : product -> Z) (products : list product)
    (assembly painting : Z) :
  declared_in (car_production products assembly painting) (weighted f products).
Proof.
  intros v Hv. apply vars_of_sum in Hv as (t & Ht & Hv).
  apply list_elem_of_fmap in Ht as (p & -> & Hp). simpl in Hv.
  apply list_elem_of_singleton in Hv as ->.
  simpl m_vars. rewrite fmap_app, elem_of_app. left.
  apply list_elem_of_fmap. exists (continuous (qty (p_name p))).
  split; [reflexivity|]. apply list_elem_of_fmap. eauto.
Qed.

(** X8: on well-formed tables the model has, for every material, one
    variable [QtyToProduce__m] and one variable [UnfulfilledDemand__m], each
    with lower bound 0 and no upper bound, and no other variable; every
    constraint and the objective mention only these variables. *)
Theorem create_base_model_variables (inputs : gmap string DataFrame)
    (product_info availability : DataFrame) (products : list product)
    (resources : list (cell * Z)) (assembly painting : Z) :
  inputs !! "ProductInfo" = Some product_info ->
  inputs !! "Availability" = Some availability ->
  product_table product_info products ->
  capacity_table availability resources ->
  (CStr "Assembly", assembly) ∈ resources ->
  (CStr "Painting", painting) ∈ resources ->
  declares_its_variables inputs products.
Proof.
  intros Hpi Hav Hproducts Hresources Hassembly Hpainting.
  exists (car_production products assembly painting). split.
  { eapply create_base_model_ok; eauto. }
  split; [reflexivity|]. split; [|split].
  - simpl. apply Forall_app. split; apply Forall_fmap, Forall_forall; now intros.
  - cbn [m_constraints car_production]. apply Forall_app. split.
    + apply Forall_fmap, Forall_forall. intros p Hp. split.
      * intros v Hv. simpl in Hv. simpl m_vars. rewrite fmap_app, elem_of_app.
        apply elem_of_cons in Hv as [->|Hv].
        -- left. apply list_elem_of_fmap. exists (continuous (qty (p_name p))).
           split; [reflexivity|]. apply list_elem_of_fmap. eauto.
        -- apply list_elem_of_singleton in Hv as ->.
           right. apply list_elem_of_fmap. exists (continuous (slack (p_name p))).
           split; [reflexivity|]. apply list_elem_of_fmap. eauto.
      * intros v Hv. now apply elem_of_nil in Hv.
    + repeat constructor; try apply weighted_declared;
        intros v Hv; now apply elem_of_nil in Hv.
  - intros e [= <-]. apply weighted_declared.
Qed.

Lemma create_base_model_variables_witness :
  declares_its_variables sample_inputs sample_products.
Proof.
  apply (create_base_model_variables sample_inputs product_info_table
           availability_table sample_products sample_resources 1600 1200).
  - vm_compute. reflexivity.
  - vm_compute. reflexivity.
  - exact sample_product_table.
  - exact sample_capacity_table.
  - apply (bool_decide_unpack _). vm_compute. exact I.
  - apply (bool_decide_unpack _). vm_compute. exact I.
Defined.

(* --------------------------------------------------------------------- *)
(** ** The slack variables keep the model feasible                        *)
(* --------------------------------------------------------------------- *)

(** An assignment satisfies a constraint. *)
Definition satisfies (sigma : string -> Z) (c : lconstraint) : Prop :=
  match c_sense c with
  | GE => eval sigma (c_rhs c) <= eval sigma (c_lhs c)
  | LE => eval sigma (c_lhs c) <= eval sigma (c_rhs c)
  end.

(** An assignment respects the bounds of a variable. *)
Definition within_bounds (sigma : string -> Z) (v : var_decl) : Prop :=
  v_lb v <= sigma (v_name v) /\
  match v_ub v with Some u => sigma (v_name v) <= u | None => True end.

(** The largest requirement, or 0. *)
Definition largest_requirement (products : list product) : Z :=
  foldr (fun p acc => Z.max (p_required p) acc) 0 products.

(** Produce nothing and leave every demand unfulfilled. *)
Definition idle_plan (products : list product) (v : string) : Z :=
  match v with
  | String "U" _ => largest_requirement products
  | _ => 0
  end.

Lemma largest_requirement_bounds (products : list product) :
  0 <= largest_requirement products /\
  forall p, p ∈ products -> p_required p <= largest_requirement products.
Proof.
  induction products as [|q ps [IH0 IH]]; simpl.
  - split; [lia|]. intros p Hp. now apply elem_of_nil in Hp.
  - split; [lia|]. intros p Hp. apply elem_of_cons in Hp as [->|Hp]; [lia|].
    specialize (IH p Hp). lia.
Qed.

Lemma idle_plan_produces_nothing (f : product -> Z) (products all : list product) :
  eval (idle_plan all) (weighted f products) = 0.
Proof.
  rewrite weighted_eval. induction products as [|p ps IH]; [reflexivity|].
  cbn [foldr]. rewrite IH.
  change (idle_plan all (qty (p_name p))) with 0. lia.
Qed.

(** The model built from [inputs] has a solution. *)
Definition feasible (inputs : gmap string DataFrame) : Prop :=
  exists model sigma,
    model.create_base_model inputs = Ok model /\
    Forall (within_bounds sigma) (m_vars model) /\
    Forall (satisfies sigma) (m_constraints model).

(** X9: on well-formed tables with capacities that are not negative, the
    model [create_base_model] builds is feasible whatever the requirements
    are: producing nothing and declaring all demand unfulfilled respects the
    bounds of the variables and satisfies every constraint. *)
Theorem create_base_model_feasible (inputs : gmap string DataFrame)
    (product_info availability : DataFrame) (products : list product)
    (resources : list (cell * Z)) (assembly painting : Z) :
  inputs !! "ProductInfo" = Some product_info ->
  inputs !! "Availability" = Some availability ->
  product_table product_info products ->
  capacity_table availability resources ->
  (CStr "Assembly", assembly) ∈ resources ->
  (CStr "Painting", painting) ∈ resources ->
  0 <= assembly -> 0 <= painting ->
  feasible inputs.
Proof.
  intros Hpi Hav Hproducts Hresources Hassembly Hpainting Ha Hp.
  exists (car_production products assembly painting), (idle_plan products).
  split; [eapply create_base_model_ok; eauto|].
  destruct (largest_requirement_bounds products) as [Hnonneg Hlargest].
  split.
  - simpl. apply Forall_app. split; apply Forall_fmap, Forall_forall; intros p _.
    + split; [|exact I]. simpl. change (idle_plan products (qty (p_name p))) with 0. lia.
    + split; [|exact I]. simpl.
      change (idle_plan products (slack (p_name p))) with (largest_requirement products).
      exact Hnonneg.
  - cbn [m_constraints car_production]. apply Forall_app. split.
    + apply Forall_fmap, Forall_forall. intros p Hin. unfold satisfies. simpl.
      change (idle_plan products (qty (p_name p))) with 0.
      change (idle_plan products (slack (p_name p))) with (largest_requirement products).
      specialize (Hlargest p Hin). lia.
    + repeat constructor; unfold satisfies, capacity_constraint;
        cbn [c_sense c_lhs c_rhs]; rewrite idle_plan_produces_nothing; simpl; lia.
Qed.

Lemma create_base_model_feasible_witness : feasible sample_inputs.
Proof.
  apply (create_base_model_feasible sample_inputs product_info_table
           availability_table sample_products sample_resources 1600 1200).
  - vm_compute. reflexivity.
  - vm_compute. reflexivity.
  - exact sample_product_table.
  - exact sample_capacity_table.
  - apply (bool_decide_unpack _). vm_compute. exact I.
  - apply (bool_decide_unpack _). vm_compute. exact I.
  - lia.
  - lia.
Defined.

(* --------------------------------------------------------------------- *)
(** ** The values of the indicators                                       *)
(* --------------------------------------------------------------------- *)

(** The values [kpis_as_dict] reports for the model built from [inputs]. *)
Definition reports_profit_and_slack (inputs : gmap string DataFrame)
    (products : list product) : Prop :=
  exists model,
    model.create_base_model inputs = Ok model /\
    forall s : Solution,
      model.kpis_as_dict model s =
      [ ("Projected Profit",
         foldr (fun p acc => p_profit p * solution_value s (qty (p_name p)) + acc)
           0 products);
        ("Unfulfilled Demand",
         foldr (fun p acc => solution_value s (slack (p_name p)) + acc) 0 products) ].

(** X10: for the model built from well-formed tables and any solution,
    [kpis_as_dict] reports as [Projected Profit] the sum over the materials
    of the profit margin times the quantity produced, and as [Unfulfilled
    Demand] the sum of the slack values. *)
Theorem kpis_as_dict_values (inputs : gmap string DataFrame)
    (product_info availability : DataFrame) (products : list product)
    (resources : list (cell * Z)) (assembly painting : Z) :
  inputs !! "ProductInfo" = Some product_info ->
  inputs !! "Availability" = Some availability ->
  product_table product_info products ->
  capacity_table availability resources ->
  (CStr "Assembly", assembly) ∈ resources ->
  (CStr "Painting", painting) ∈ resources ->
  reports_profit_and_slack inputs products.
Proof.
  intros Hpi Hav Hproducts Hresources Hassembly Hpainting.
  exists (car_production products assembly painting).
  split; [eapply create_base_model_ok; eauto|].
  intros s. unfold model.kpis_as_dict. cbn [m_kpis car_production fmap list_fmap].
  now rewrite weighted_eval, total_slack_eval.
Qed.

Lemma kpis_as_dict_values_witness :
  reports_profit_and_slack sample_inputs sample_products.
Proof.
  apply (kpis_as_dict_values sample_inputs product_info_table
           availability_table sample_products sample_resources 1600 1200).
  - vm_compute. reflexivity.
  - vm_compute. reflexivity.
  - exact sample_product_table.
  - exact sample_capacity_table.
  - apply (bool_decide_unpack _). vm_compute. exact I.
  - apply (bool_decide_unpack _). vm_compute. exact I.
Defined.

(* ===================================================================== *)
(** * Further properties: solving and writing the results                 *)
(* ===================================================================== *)

(** The sample platform with an engine that finds no solution. *)
Definition unsolved_platform : Platform :=
  {| Content := @Content sample_platform;
     json_load := @json_load sample_platform;
     json_dump := @json_dump sample_platform;
     json_load_dump := @json_load_dump sample_platform;
     pickle_load := @pickle_load sample_platform;
     read_csv := @read_csv sample_platform;
     to_csv := @to_csv sample_platform;
     tar_gz := @tar_gz sample_platform;
     Cloud := @Cloud sample_platform;
     wml := @wml sample_platform;
     cplex_solve := fun _ => Ok None;
     project_root := @project_root sample_platform |}.

Section SolutionFacts.
Context `{Platform}.

(** X11: when the engine returns without a solution, the model script
    raises [AttributeError] in [parse_solution]; the engine has been called,
    and no result file is written. *)
Theorem main_without_solution (w : World) (inputs : gmap string DataFrame)
    (model_formulation : LPModel) :
  (model.get_all_inputs w).1 = Ok inputs ->
  model.create_base_model inputs = Ok model_formulation ->
  cplex_solve model_formulation = Ok None ->
  model.main w =
  (Raise (AttributeError "'NoneType' object has no attribute 'iter_variables'"),
   after w [EvSolve model_formulation]).
Proof.
  intros Hin Hmodel Hsolve.
  apply with_final_state in Hin. rewrite get_all_inputs_reads in Hin.
  unfold model.main. unfold mbind, SE_bind. rewrite Hin. unfold lift.
  rewrite Hmodel. unfold model.solve_model. unfold mbind, SE_bind, lift.
  rewrite emit_after, Hsolve. reflexivity.
Qed.

(** The name of a variable has the two parts [parse_solution] expects. *)
Definition two_parts (name : string) : Prop :=
  length (py_split "__" name) = 2%nat.

Lemma fill_solution_returns (s : Solution) :
  forall df, is_raised (model.fill_solution s df) = false <->
             Forall (fun nv => two_parts nv.1) s.
Proof.
  induction s as [|[name value] s IH]; intros df.
  - split; [constructor | reflexivity].
  - cbn [model.fill_solution]. rewrite Forall_cons. unfold two_parts at 1. simpl fst.
    destruct (py_split "__" name) as [|a [|b [|c l]]]; simpl;
      try (split; [discriminate | intros [[=] _]]).
    rewrite IH. tauto.
Qed.

(** X12: [parse_solution] returns exactly when the model has a solution
    and the name of every variable in it splits at ['__'] into two parts; a
    variable whose name has no ['__'] or more than one makes it raise. *)
Theorem parse_solution_returns (model : LPModel) :
  is_raised (model.parse_solution model) = false <->
  exists s, m_solution model = Some s /\ Forall (fun nv => two_parts nv.1) s.
Proof.
  unfold model.parse_solution. destruct (m_solution model) as [s|].
  - unfold mbind, result_bind.
    pose proof (fill_solution_returns s empty_frame) as Hfill.
    destruct (model.fill_solution s empty_frame); simpl in *.
    + split; [intros _; exists s; split; [reflexivity | now apply Hfill] | reflexivity].
    + split; [discriminate | intros (s' & [= <-] & Hs); now apply Hfill in Hs].
  - simpl. split; [discriminate | intros (s & [=] & _)].
Qed.

(** The file an output is written to. *)
Definition csv_file (output : string * DataFrame) : string := output.1 +:+ ".csv".

(** The files after the outputs are written, in order. *)
Definition disk_with_outputs (outputs : list (string * DataFrame))
    (d : gmap string Content) : gmap string Content :=
  foldl (fun d o => <[csv_file o := to_csv false o.2]> d) d outputs.

Lemma outputs_loop (outputs : list (string * DataFrame)) :
  forall w : World,
    for_each outputs (fun '(name, df) =>
      let csv_file := name +:+ ".csv" in
      emit (EvPrint csv_file) ;; write_file csv_file (to_csv false df)) w =
    (Ok tt,
     {| disk := disk_with_outputs outputs (disk w); listdir := listdir w;
        today := today w; cloud := cloud w;
        trace := trace w ++ ((fun o => EvPrint (csv_file o)) <$> outputs) |}).
Proof.
  induction outputs as [|[name df] outputs IH]; intros w.
  - simpl. rewrite app_nil_r. now destruct w.
  - cbn [for_each]. unfold mbind, SE_bind at 1.
    unfold mbind, SE_bind at 1. rewrite emit_after. unfold write_file at 1.
    unfold mbind, SE_bind in IH. rewrite IH. simpl.
    rewrite <- app_assoc. reflexivity.
Qed.

Lemma disk_with_outputs_other (outputs : list (string * DataFrame)) (p : string) :
  forall d, Forall (fun o => csv_file o <> p) outputs ->
            disk_with_outputs outputs d !! p = d !! p.
Proof.
  induction outputs as [|o outputs IH]; intros d Hall; [reflexivity|].
  apply Forall_cons in Hall as [Ho Hall]. unfold disk_with_outputs in *. simpl.
  rewrite IH by exact Hall. now apply lookup_insert_ne.
Qed.

(** X13: when [outputs_to_csv] returns, it has announced and written the
    outputs in order, each to the file named after its key (a later output
    with the same key replaces the earlier one), has left every other file
    alone, and has logged a warning exactly when there were no outputs. *)
Theorem outputs_to_csv_effects (outputs : list (string * DataFrame))
    (w w' : World) :
  model.outputs_to_csv outputs w = (Ok tt, w') ->
  disk w' = disk_with_outputs outputs (disk w) /\
  (forall p, Forall (fun o => csv_file o <> p) outputs -> disk w' !! p = disk w !! p) /\
  trace w' =
    trace w ++ ((fun o => EvPrint (csv_file o)) <$> outputs) ++
    match outputs with [] => [EvLogWarning "No outputs written"] | _ => [] end.
Proof.
  intros Hret.
  assert (Hout : model.outputs_to_csv outputs w =
            (Ok tt,
             {| disk := disk_with_outputs outputs (disk w); listdir := listdir w;
                today := today w; cloud := cloud w;
                trace := trace w ++ ((fun o => EvPrint (csv_file o)) <$> outputs) ++
                         match outputs with
                         | [] => [EvLogWarning "No outputs written"]
                         | _ => []
                         end |})).
  { unfold model.outputs_to_csv. unfold mbind, SE_bind at 1. rewrite outputs_loop.
    destruct outputs as [|o outputs].
    - unfold emit. simpl. now rewrite app_nil_r.
    - destruct (decide (length (o :: outputs) = 0%nat)) as [Hlen|_]; [discriminate|].
      cbn [mret SE_ret]. now rewrite app_nil_r. }
  rewrite Hout in Hret. injection Hret as <-. cbn [disk trace].
  split; [reflexivity|]. split; [|reflexivity].
  intros p Hp. now apply disk_with_outputs_other.
Qed.

(** The outputs of a job before the one for [solution.csv]. *)
Definition other_output (x : json) : Prop :=
  exists id, py_getitem x "id" = Ok id /\ is_solution_csv id = false.

(** X14: the search for the [solution.csv] entry returns the first output
    whose [id] is ["solution.csv"]; it raises [StopIteration] when every
    output has another [id], and the error of the first output whose [id]
    cannot be read when that comes first. *)
Theorem next_solution_csv_finds_first (outputs : list json) :
  match next_solution_csv outputs with
  | Ok o =>
      exists before rest,
        outputs = before ++ o :: rest /\ Forall other_output before /\
        py_getitem o "id" = Ok (JStr "solution.csv")
  | Raise StopIteration => Forall other_output outputs
  | Raise e =>
      exists before x rest,
        outputs = before ++ x :: rest /\ Forall other_output before /\
        py_getitem x "id" = Raise e
  end.
Proof.
  induction outputs as [|x outputs IH]; [constructor|].
  cbn [next_solution_csv]. unfold mbind, result_bind.
  destruct (py_getitem x "id") as [id|e] eqn:Hid.
  - destruct (is_solution_csv id) eqn:Hsol.
    + exists [], outputs. split; [reflexivity|]. split; [constructor|].
      destruct id; try discriminate. simpl in Hsol.
      now apply bool_decide_eq_true in Hsol as ->.
    + assert (Hx : other_output x) by (exists id; auto).
      destruct (next_solution_csv outputs) as [o|e].
      * destruct IH as (before & rest & -> & Hbefore & Ho).
        exists (x :: before), rest. repeat split; auto.
      * destruct e; try (destruct IH as (before & y & rest & -> & Hbefore & Hy);
          exists (x :: before), y, rest; repeat split; auto).
        constructor; auto.
  - assert (Hraise : exists before y rest,
              x :: outputs = before ++ y :: rest /\ Forall other_output before /\
              py_getitem y "id" = Raise e).
    { exists [], x, outputs. repeat split; auto. }
    destruct e; try exact Hraise.
    unfold py_getitem in Hid. destruct x; try discriminate.
    destruct (o !! "id"); discriminate.
Qed.

End SolutionFacts.

Lemma main_without_solution_witness :
  let w := @Build_World unsolved_platform (list_to_map input_files) input_folder
             "2024-01-31" O [] in
  model.main (H := unsolved_platform) w =
  (Raise (AttributeError "'NoneType' object has no attribute 'iter_variables'"),
   after w [EvSolve (car_production sample_products 1600 1200)]).
Proof.
  cbv zeta. apply (main_without_solution (H := unsolved_platform) _ sample_inputs).
  - vm_compute. reflexivity.
  - vm_compute. reflexivity.
  - reflexivity.
Defined.

Lemma outputs_to_csv_effects_witness :
  let outputs := [ ("solution", availability_table); ("kpis", product_info_table);
                   ("solution", product_info_table) ] in
  let w := sample_world input_files input_folder in
  let w' := (model.outputs_to_csv (H := sample_platform) outputs w).2 in
  disk w' = disk_with_outputs outputs (disk w) /\
  (forall p, Forall (fun o => csv_file o <> p) outputs -> disk w' !! p = disk w !! p) /\
  trace w' =
    trace w ++ ((fun o => EvPrint (csv_file o)) <$> outputs) ++
    match outputs with [] => [EvLogWarning "No outputs written"] | _ => [] end.
Proof.
  cbv zeta. apply (outputs_to_csv_effects (H := sample_platform)).
  apply with_final_state. vm_compute. reflexivity.
Defined.

(* ===================================================================== *)
(** * Further properties: requirements and the job script                 *)
(* ===================================================================== *)

Section JobFacts.
Context `{Platform}.

Lemma lift_ok {S A} (r : result A) (a : A) (s s' : S) :
  lift r s = (Ok a, s') -> r = Ok a /\ s' = s.
Proof. unfold lift. now intros [= -> ->]. Qed.

(** What [process_results] has done to the files when it ends in [out]. *)
Definition all_or_nothing (w : World) (out : result unit * World) : Prop :=
  match out.1 with
  | Ok _ => exists df, disk out.2 = <["solution.csv" := to_csv true df]> (disk w)
  | Raise _ => disk out.2 = disk w
  end.

(** X15: [process_results] writes [solution.csv] only after every lookup
    in the details of the job has succeeded: when it raises, no file has
    changed, and when it returns, [solution.csv] is the only file that
    has. *)
Theorem process_results_all_or_nothing (client : APIClient) (job_id : json)
    (w : World) :
  all_or_nothing w (model_execute.process_results client job_id w).
Proof.
  unfold all_or_nothing, model_execute.process_results, call.
  unfold mbind, SE_bind, lift.
  destruct (wml (Deployments_get_job_details job_id) (cloud w)) as [[details|e] cl];
    [|reflexivity].
  repeat match goal with
         | |- context [match ?r with Ok _ => _ | Raise _ => _ end] =>
             lazymatch r with
             | py_getitem _ _ => destruct r
             | py_iter _ => destruct r
             | next_solution_csv _ => destruct r
             | frame_of_json _ _ => destruct r
             end; try reflexivity
         end.
  simpl. eauto.
Qed.

Lemma loc_number_ok (df : DataFrame) (label : cell) (column : string) (n : Z) :
  loc_number df label column = Ok n ->
  label ∈ df_index df /\ exists cs, df_column df column = Some cs.
Proof.
  unfold loc_number, loc. destruct (df_column df column) as [cs|]; [|discriminate].
  intros Hloc. split; [|eauto].
  destruct (decide (label ∈ df_index df)) as [Hin|Hnot]; [exact Hin|].
  now rewrite (positions_absent label (df_index df) 0 Hnot) in Hloc.
Qed.

End JobFacts.

(** What the inputs must hold for [create_base_model] to return. *)
Definition has_required_tables (inputs : gmap string DataFrame) : Prop :=
  exists product_info availability names resources capacities,
    inputs !! "ProductInfo" = Some product_info /\
    df_column product_info "ResourceName" = Some names /\
    inputs !! "Availability" = Some availability /\
    df_column availability "Resource" = Some resources /\
    df_column availability "Capacity" = Some capacities /\
    CStr "Assembly" ∈ resources /\ CStr "Painting" ∈ resources.

(** X16: [create_base_model] returns a model only if the inputs hold a
    table [ProductInfo] with a column [ResourceName] and a table
    [Availability] with the columns [Resource] and [Capacity] and rows
    labelled [Assembly] and [Painting]; without any of these it raises. *)
Theorem create_base_model_requires (inputs : gmap string DataFrame)
    (model : LPModel) :
  model.create_base_model inputs = Ok model -> has_required_tables inputs.
Proof.
  unfold model.create_base_model, input_frame, set_index.
  unfold mbind at 1 2 3 4, result_bind.
  destruct (inputs !! "ProductInfo") as [product_info|] eqn:Hpi; [|discriminate].
  destruct (df_column product_info "ResourceName") as [names|] eqn:Hnames;
    [|discriminate].
  destruct (inputs !! "Availability") as [availability|] eqn:Hav; [|discriminate].
  destruct (df_column availability "Resource") as [resources|] eqn:Hres;
    [|discriminate].
  match goal with
  | |- context [model.formulate ?r ?a ?m] =>
      destruct (model.formulate r a m) as [[[]|e] model'] eqn:Hform; [|discriminate]
  end.
  intros _. unfold model.formulate in Hform.
  apply bind_ok in Hform as (qd & m1 & _ & Hform).
  apply bind_ok in Hform as (sd & m2 & _ & Hform).
  apply bind_ok in Hform as ([] & m3 & _ & Hform).
  apply bind_ok in Hform as (ah & m4 & _ & Hform).
  apply bind_ok in Hform as (ac & m5 & Hassembly & Hform).
  apply bind_ok in Hform as (c1 & m6 & _ & Hform).
  apply bind_ok in Hform as (ph & m7 & _ & Hform).
  apply bind_ok in Hform as (pc & m8 & Hpainting & _).
  apply lift_ok in Hassembly as [Hassembly _].
  apply lift_ok in Hpainting as [Hpainting _].
  apply loc_number_ok in Hassembly as [Ha [cs Hcs]].
  apply loc_number_ok in Hpainting as [Hp _].
  unfold df_column in Hcs. simpl in Hcs, Ha, Hp.
  rewrite assoc_remove_other in Hcs by discriminate.
  exists product_info, availability, names, resources, cs. repeat split; auto.
Qed.

Lemma create_base_model_requires_witness : has_required_tables sample_inputs.
Proof.
  apply (create_base_model_requires sample_inputs
           (car_production sample_products 1600 1200)).
  vm_compute. reflexivity.
Defined.

Section SubmitFacts.
Context `{Platform}.






End SubmitFacts.


(* ===================================================================== *)
(** * Further properties: the files a script may change                   *)
(* ===================================================================== *)

Section FileFacts.
Context `{Platform}.

(** [m] changes no file other than those [P] allows. *)
Definition touches_only {A} (P : string -> Prop) (m : M A) : Prop :=
  forall w p, ~ P p -> disk (m w).2 !! p = disk w !! p.

Lemma touches_only_ret {A} P (a : A) : touches_only P (mret a : M A).
Proof. now intros w p _. Qed.

Lemma touches_only_raise {A} P (e : exn) : touches_only P (raise e : M A).
Proof. now intros w p _. Qed.

Lemma touches_only_lift {A} P (r : result A) : touches_only P (lift r : M A).
Proof. now intros w p _. Qed.

Lemma touches_only_bind {A B} P (m : M A) (f : A -> M B) :
  touches_only P m -> (forall a, touches_only P (f a)) -> touches_only P (m ≫= f).
Proof.
  intros Hm Hf w p Hp. unfold_m. specialize (Hm w p Hp).
  destruct (m w) as [[a|e] w1]; simpl in Hm; [|exact Hm].
  now rewrite (Hf a w1 p Hp).
Qed.

Lemma touches_only_bind_lift {A B} P (r : result A) (f : A -> M B) :
  (forall a, r = Ok a -> touches_only P (f a)) -> touches_only P (lift r ≫= f).
Proof.
  intros Hf w p Hp. unfold_m. destruct r as [a|e]; [|reflexivity].
  exact (Hf a eq_refl w p Hp).
Qed.

Lemma touches_only_try {A} P (m : M A) (h : exn -> option (M A)) :
  touches_only P m -> (forall e k, h e = Some k -> touches_only P k) ->
  touches_only P (try_except m h).
Proof.
  intros Hm Hh w p Hp. unfold try_except. specialize (Hm w p Hp).
  destruct (m w) as [[a|e] w1]; simpl in Hm; [exact Hm|].
  destruct (h e) as [k|] eqn:Hk; [|exact Hm].
  now rewrite (Hh e k Hk w1 p Hp).
Qed.

Lemma touches_only_emit P (e : event) : touches_only P (emit e).
Proof. now intros w p _. Qed.

Lemma touches_only_call P (c : wml_call) : touches_only P (call c).
Proof. intros w p _. unfold call. now destruct (wml c (cloud w)). Qed.

Lemma touches_only_read_file P (path : string) : touches_only P (read_file path).
Proof. intros w p _. unfold read_file. now destruct (disk w !! path). Qed.

Lemma touches_only_write_file (P : string -> Prop) (path : string) (c : Content) :
  P path -> touches_only P (write_file path c).
Proof.
  intros Hpath w p Hp. simpl. apply lookup_insert_ne. now intros ->.
Qed.

Lemma touches_only_today P : touches_only P utils.today_str.
Proof. now intros w p _. Qed.

Lemma touches_only_listdir P : touches_only P model.os_listdir.
Proof. now intros w p _. Qed.

Lemma touches_only_for_each {A} P (xs : list A) (body : A -> M unit) :
  (forall x, x ∈ xs -> touches_only P (body x)) -> touches_only P (for_each xs body).
Proof.
  induction xs as [|x xs IH]; intros Hb; simpl.
  - apply touches_only_ret.
  - apply touches_only_bind.
    + apply Hb, elem_of_cons. now left.
    + intros _. apply IH. intros y Hy. apply Hb, elem_of_cons. now right.
Qed.

Lemma touches_only_try_getter P (m : M json) (mm sm : string) :
  touches_only P m -> touches_only P (try_except m (utils.getter_handler mm sm)).
Proof.
  intros Hm. apply touches_only_try; [exact Hm|].
  intros e k Hk. destruct e; simpl in Hk; inversion Hk; subst;
    (apply touches_only_bind; [apply touches_only_emit | intros ?; apply touches_only_raise]).
Qed.

Lemma touches_only_try_pass P (m : M unit) :
  touches_only P m -> touches_only P (try_except m utils.log_and_pass).
Proof.
  intros Hm. apply touches_only_try; [exact Hm|].
  intros e k [= <-]. apply touches_only_emit.
Qed.

Lemma touches_only_read_inputs P (csv_files : list string)
    (acc : gmap string DataFrame) :
  touches_only P (model.read_inputs csv_files acc).
Proof.
  intros w p _. now rewrite read_inputs_reads.
Qed.

End FileFacts.

(** One step of a computation; what is left are the conditions on the files
    it writes. *)
Ltac file_step :=
  first
    [ apply touches_only_ret | apply touches_only_raise | apply touches_only_lift
    | apply touches_only_read_file | apply touches_only_today
    | apply touches_only_listdir | apply touches_only_emit
    | apply touches_only_call | apply touches_only_read_inputs
    | apply touches_only_write_file
    | apply touches_only_bind_lift; intros ? ?
    | apply touches_only_bind; [|intros ?]
    | apply touches_only_try_getter
    | apply touches_only_try_pass
    | match goal with
      | |- touches_only _ (match ?x with _ => _ end) => destruct x
      | |- touches_only _ (if ?x then _ else _) => destruct x
      | |- touches_only _ (let '(_, _) := ?x in _) => destruct x
      end ].

Ltac file_steps := repeat file_step.

Section ScriptFiles.
Context `{Platform}.

Lemma touches_only_main_wait P (client : APIClient) (job_id : json) (fuel : nat)
    (elapsed_time : Z) :
  touches_only P (model_execute.main_wait fuel client job_id elapsed_time).
Proof.
  revert elapsed_time. induction fuel as [|fuel IH]; intros elapsed_time; simpl.
  - apply touches_only_ret.
  - unfold model_execute.job_state, model_execute.wait_longer. file_steps. apply IH.
Qed.

(** X18: whatever the cloud answers and however long the job takes, the
    job script changes no file other than [solution.csv]; in particular it
    leaves [auth.json], [settings.json] and the input tables as they
    are. *)
Theorem script_writes_solution_only (solve_parameters : list (string * json))
    (fuel : nat) :
  touches_only (fun p => p = "solution.csv")
    (model_execute.script solve_parameters fuel).
Proof.
  unfold model_execute.script, model_execute.main_submit,
    model_execute.main_report, model_execute.process_results,
    model_execute.job_state, model_execute.get_deployment_id,
    model.get_all_inputs.
  unfold_utils. file_steps; try reflexivity.
  all: apply touches_only_main_wait.
Qed.

(** The files [publish_and_deploy_model] may write for a model called
    [model_name]: the settings and the archive of a publication. *)
Definition deployment_file (model_name : string) (p : string) : Prop :=
  p = utils.settings_path \/
  exists day, p = (model_name +:+ " PUBLICATION- " +:+ day) +:+ "/model.tar.gz".

Lemma touches_only_store_publishing_id (P : string -> Prop) (id : json) :
  P utils.settings_path -> touches_only P (utils.store_publishing_id id).
Proof.
  intros Hsettings w p Hp. rewrite store_publishing_id_outcome.
  apply (store_outcome_stores_only "publishing_id" id w). now intros ->.
Qed.

Lemma touches_only_store_deployment_id (P : string -> Prop) (id : json) :
  P utils.settings_path -> touches_only P (utils.store_deployment_id id).
Proof.
  intros Hsettings w p Hp. rewrite store_deployment_id_outcome.
  apply (store_outcome_stores_only "deployment_id" id w). now intros ->.
Qed.

(** X19: whatever the cloud answers, [publish_and_deploy_model] changes no
    file other than [settings.json] and the archive [model.tar.gz] in the
    folder of the publication; in particular it leaves [auth.json] and the
    model script as they are. *)
Theorem publish_and_deploy_writes_settings_and_archive
    (wml_credentials : credentials) (model_python_path model_name : string)
    (tags : option (list string)) (description : string) (delete_previous : bool) :
  touches_only (deployment_file model_name)
    (utils.publish_and_deploy_model wml_credentials model_python_path model_name
       tags description delete_previous).
Proof.
  unfold utils.publish_and_deploy_model, utils.get_wml_client,
    utils.delete_previous_publication_and_deployment,
    utils.delete_previous_deployment, utils.delete_previous_publication,
    utils.get_deployment_id, utils.get_publish_id, utils.get_settings,
    utils.publish, utils.deploy, utils.zip_model,
    utils.specify_model_meta_properties, utils.get_space_uid,
    utils.load_from_disk.
  repeat first
    [ apply touches_only_store_publishing_id; now left
    | apply touches_only_store_deployment_id; now left
    | file_step ].
  all: right; eexists; reflexivity.
Qed.

(** X20: the model script changes no file other than [solution.csv] and
    [kpis.csv], whatever the folder holds and whatever the engine
    returns. *)
Theorem main_writes_results_only :
  touches_only (fun p => p = "solution.csv" \/ p = "kpis.csv") model.main.
Proof.
  unfold model.main, model.get_all_inputs, model.solve_model. file_steps.
  match goal with
  | Hparse : model.parse_solution _ = Ok ?outs |- _ =>
      unfold model.parse_solution in Hparse;
      destruct (m_solution _) as [s|]; [|discriminate];
      unfold mbind, result_bind in Hparse;
      destruct (model.fill_solution s empty_frame); [|discriminate];
      injection Hparse as <-
  end.
  unfold model.outputs_to_csv. cbn [for_each]. file_steps; auto.
Qed.

End ScriptFiles.

Lemma script_writes_solution_only_witness :
  let w := sample_world (deployed_files ++ input_files) input_folder in
  disk (model_execute.script (H := sample_platform) utils.get_solve_parameters 31 w).2
    !! "ProductInfo.csv" = disk w !! "ProductInfo.csv".
Proof.
  cbv zeta. apply (script_writes_solution_only (H := sample_platform)).
  discriminate.
Defined.

Lemma publish_and_deploy_writes_settings_and_archive_witness :
  let w := sample_world deployed_files [] in
  disk (utils.publish_and_deploy_model (H := sample_platform) sample_credentials
          "model.py" "CAR PRODUCTION" None "A sample case." true w).2
    !! "model.py" = disk w !! "model.py".
Proof.
  cbv zeta.
  apply (publish_and_deploy_writes_settings_and_archive (H := sample_platform)).
  intros [Hsettings | [day Harchive]]; [vm_compute in Hsettings|]; discriminate.
Defined.

Lemma main_writes_results_only_witness :
  let w := sample_world (deployed_files ++ input_files) input_folder in
  disk (model.main (H := sample_platform) w).2 !! "ProductInfo.csv" =
  disk w !! "ProductInfo.csv".
Proof.
  cbv zeta. apply (main_writes_results_only (H := sample_platform)).
  intros [Hs | Hk]; discriminate.
Defined.
